(** * Neural Spaced Mastery: interval prediction and training pipeline

    A shallow embedding of [server-src/ml/predict.py] and
    [server-src/ml/train_model.py].

    - Python values (JSON documents, feature mappings, result dicts) are
      [pyval]; a [dict] is a [gmap string pyval].
    - Python floats are [pyfloat]: an exact rational, or one of the IEEE
      special values [PInf], [NInf], [NaN].  Rounding and overflow of finite
      values are not modelled; the special values follow Python and numpy.
    - A raised exception is [Raise e] in the error monad [raises]; every
      exception class of the model derives from Python's [Exception].
    - The module-level cache of predict.py and the three artifact files are
      explicit state ([Cache], [FileSystem]). *)

From Stdlib Require Import QArith Qreduction Qabs Qminmax Lqa.
From stdpp Require Import gmap strings list pretty.

Set Warnings "-register-all".
Local Open Scope Q_scope.

(** ** Python floats *)

Inductive pyfloat :=
| Fin (q : Q)
| PInf
| NInf
| NaN.

Definition Qsign (q : Q) : comparison := Qcompare q 0.

(** [abs(x)] *)
Definition fabs (x : pyfloat) : pyfloat :=
  match x with
  | Fin q => Fin (Qred (Qabs q))
  | PInf | NInf => PInf
  | NaN => NaN
  end.

(** [x - y] *)
Definition fsub (x y : pyfloat) : pyfloat :=
  match x, y with
  | NaN, _ | _, NaN => NaN
  | Fin a, Fin b => Fin (Qred (a - b))
  | PInf, PInf | NInf, NInf => NaN
  | PInf, _ => PInf
  | NInf, _ => NInf
  | Fin _, PInf => NInf
  | Fin _, NInf => PInf
  end.

(** An infinity of the given sign; a zero sign is the invalid operation. *)
Definition inf_of_sign (s : comparison) : pyfloat :=
  match s with
  | Gt => PInf
  | Lt => NInf
  | Eq => NaN
  end.

(** [x * y] *)
Definition fmul (x y : pyfloat) : pyfloat :=
  match x, y with
  | NaN, _ | _, NaN => NaN
  | Fin a, Fin b => Fin (Qred (a * b))
  | PInf, Fin b | Fin b, PInf => inf_of_sign (Qsign b)
  | NInf, Fin b | Fin b, NInf => inf_of_sign (CompOpp (Qsign b))
  | PInf, PInf | NInf, NInf => PInf
  | PInf, NInf | NInf, PInf => NInf
  end.

(** numpy's element-wise [x / y]: a zero divisor gives an infinity or NaN
    (with a warning), never an exception. *)
Definition np_div (x y : pyfloat) : pyfloat :=
  match x, y with
  | NaN, _ | _, NaN => NaN
  | Fin a, Fin b =>
      match Qsign b with
      | Eq => inf_of_sign (Qsign a)
      | _ => Fin (Qred (a / b))
      end
  | Fin _, (PInf | NInf) => Fin 0
  | PInf, Fin b =>
      match Qsign b with Lt => NInf | _ => PInf end
  | NInf, Fin b =>
      match Qsign b with Lt => PInf | _ => NInf end
  | (PInf | NInf), (PInf | NInf) => NaN
  end.

(** [x > y] on floats; every comparison with NaN is false. *)
Definition fgt (x y : pyfloat) : bool :=
  match x, y with
  | NaN, _ | _, NaN => false
  | Fin a, Fin b => match Qcompare a b with Gt => true | _ => false end
  | PInf, (Fin _ | NInf) => true
  | Fin _, NInf => true
  | _, _ => false
  end.

Definition flt (x y : pyfloat) : bool := fgt y x.

(** Python's builtin [max(a, b)]: the first argument is kept unless the
    second compares greater. *)
Definition py_max (a b : pyfloat) : pyfloat := if fgt b a then b else a.

(** [np.maximum] and [np.minimum] propagate NaN. *)
Definition np_maximum (x y : pyfloat) : pyfloat :=
  match x, y with
  | NaN, _ | _, NaN => NaN
  | _, _ => if fgt y x then y else x
  end.

Definition np_minimum (x y : pyfloat) : pyfloat :=
  match x, y with
  | NaN, _ | _, NaN => NaN
  | _, _ => if flt y x then y else x
  end.

(** [np.clip(x, lo, hi)] is [np.minimum(np.maximum(x, lo), hi)]. *)
Definition np_clip (x lo hi : pyfloat) : pyfloat :=
  np_minimum (np_maximum x lo) hi.

Definition isfinite (x : pyfloat) : bool :=
  match x with PInf | NInf => false | _ => true end.

(** [lo <= x <= hi] for a finite [x]; false on NaN and the infinities. *)
Definition in_range (lo hi : Q) (x : pyfloat) : Prop :=
  match x with
  | Fin q => lo <= q /\ q <= hi
  | _ => False
  end.

(** ** Python values *)

Inductive pyval :=
| VNone
| VBool (b : bool)
| VNum (x : pyfloat)
| VStr (s : string)
| VList (l : list pyval)
| VDict (d : gmap string pyval).

Abbreviation pydict := (gmap string pyval).

Definition num (q : Q) : pyval := VNum (Fin q).

(** ** Exceptions and the error monad *)

Inductive exn_class :=
| FileNotFoundError
| AttributeError
| TypeError
| ValueError
| ZeroDivisionError
| IndexError
| OtherError (name : string).

Record PyExc := mkExc { exc_class : exn_class; exc_msg : string }.

(** [str(e)] *)
Definition str_exc (e : PyExc) : string := exc_msg e.

Definition is_FileNotFoundError (e : PyExc) : bool :=
  match exc_class e with FileNotFoundError => true | _ => false end.

Inductive raises (A : Type) :=
| Return (a : A)
| Raise (e : PyExc).
Arguments Return {A} a.
Arguments Raise {A} e.

#[global] Instance raises_ret : MRet raises := @Return.
#[global] Instance raises_bind : MBind raises := fun A B f m =>
  match m with
  | Return a => f a
  | Raise e => Raise e
  end.

Fixpoint mapR {A B} (f : A -> raises B) (l : list A) : raises (list B) :=
  match l with
  | [] => Return []
  | a :: l' => b ← f a; bs ← mapR f l'; Return (b :: bs)
  end.

Definition type_name (v : pyval) : string :=
  match v with
  | VNone => "NoneType"
  | VBool _ => "bool"
  | VNum _ => "float"
  | VStr _ => "str"
  | VList _ => "list"
  | VDict _ => "dict"
  end.

(** [o.get(k, dflt)]: only a dict has the method; a present key returns its
    value whatever it is (also [None]). *)
Definition py_get (o : pyval) (k : string) (dflt : pyval) : raises pyval :=
  match o with
  | VDict d => Return (default dflt (d !! k))
  | _ => Raise (mkExc AttributeError
                  ("'" +:+ type_name o +:+ "' object has no attribute 'get'"))
  end.

(** ** FeatureVector builder

    The list literal of [predict_interval] (predict.py) and the one of
    [extract_features] (train_model.py) are the same 17 expressions in the
    same order; both are this function. *)

(** [{'fast': 2, 'medium': 1, 'slow': 0}] *)
Definition pace_table : gmap string pyval :=
  <["fast" := num 2]> (<["medium" := num 1]> (<["slow" := num 0]> ∅)).

(** [pace_table.get(v, 1)]: the key is hashed first, so a list or a dict
    raises; a key of another type than [str] is never found. *)
Definition encode_pace (v : pyval) : raises pyval :=
  match v with
  | VStr s => Return (default (num 1) (pace_table !! s))
  | VList _ | VDict _ =>
      Raise (mkExc TypeError ("unhashable type: '" +:+ type_name v +:+ "'"))
  | VNone | VBool _ | VNum _ => Return (num 1)
  end.

Definition feature_vector (feature_data : pyval) : raises (list pyval) :=
  item_difficulty ← py_get feature_data "item_difficulty" (num (1#2));
  user_mastery ← py_get feature_data "user_mastery" (num (1#2));
  days_since_last_review ← py_get feature_data "days_since_last_review" (num 0);
  response_time_seconds ← py_get feature_data "response_time_seconds" (num 5);
  quality_rating ← py_get feature_data "quality_rating" (num 3);
  repetition_count ← py_get feature_data "repetition_count" (num 0);
  current_ease_factor ← py_get feature_data "current_ease_factor" (num (5#2));
  current_interval ← py_get feature_data "current_interval" (num 1);
  hour_of_day ← py_get feature_data "hour_of_day" (num 12);
  day_of_week ← py_get feature_data "day_of_week" (num 3);
  time_since_learning_start ← py_get feature_data "time_since_learning_start" (num 0);
  previous_interval ← py_get feature_data "previous_interval" (num 0);
  learning_pace ← py_get feature_data "learning_pace" (VStr "medium");
  pace ← encode_pace learning_pace;
  cluster_mastery ← py_get feature_data "cluster_mastery" (num (1#2));
  is_quiz ← py_get feature_data "is_quiz" (num 0);
  quiz_score ← py_get feature_data "quiz_score" (num 0);
  quiz_questions_count ← py_get feature_data "quiz_questions_count" (num 0);
  Return [item_difficulty; user_mastery; days_since_last_review;
          response_time_seconds; quality_rating; repetition_count;
          current_ease_factor; current_interval; hour_of_day; day_of_week;
          time_since_learning_start; previous_interval; pace;
          cluster_mastery; is_quiz; quiz_score; quiz_questions_count].

(** The keys the builder reads. *)
Definition feature_keys : list string :=
  ["item_difficulty"; "user_mastery"; "days_since_last_review";
   "response_time_seconds"; "quality_rating"; "repetition_count";
   "current_ease_factor"; "current_interval"; "hour_of_day"; "day_of_week";
   "time_since_learning_start"; "previous_interval"; "learning_pace";
   "cluster_mastery"; "is_quiz"; "quiz_score"; "quiz_questions_count"].

(** The vector of an observation that sets none of them. *)
Definition default_vector : list pyval :=
  [num (1#2); num (1#2); num 0; num 5; num 3; num 0; num (5#2); num 1;
   num 12; num 3; num 0; num 0; num 1; num (1#2); num 0; num 0; num 0].

(** ** Scaler

    The fitted state of sklearn's [StandardScaler]: per-column location and
    scale. *)

Record StandardScaler := mkScaler {
  mean_ : list pyfloat;
  scale_ : list pyfloat
}.

(** Conversion of one cell to float64 when the batch is validated.  A
    number is kept, a bool becomes 0 or 1 and [None] becomes NaN; a list or
    a dict makes the conversion of the batch fail.  (numpy parses a cell
    that is a numeric string; the model takes every string as not
    convertible.) *)
Definition as_float (v : pyval) : raises pyfloat :=
  match v with
  | VNum x => Return x
  | VBool b => Return (Fin (if b then 1 else 0))
  | VNone => Return NaN
  | VStr _ | VList _ | VDict _ =>
      Raise (mkExc ValueError
               ("could not convert " +:+ type_name v +:+ " to float"))
  end.

(** Infinite cells are refused; NaN cells are allowed and kept. *)
Definition check_finite (x : pyfloat) : raises pyfloat :=
  if isfinite x then Return x
  else Raise (mkExc ValueError "Input X contains infinity or a value too large for dtype('float64').").

Definition validate_row (row : list pyval) : raises (list pyfloat) :=
  mapR (fun v => x ← as_float v; check_finite x) row.

Fixpoint scale_row (row mean scale : list pyfloat) : list pyfloat :=
  match row, mean, scale with
  | x :: row', m :: mean', s :: scale' =>
      np_div (fsub x m) s :: scale_row row' mean' scale'
  | _, _, _ => []
  end.

(** [scaler.transform(X)]: validate the batch, check its width against the
    fitted width (ShapeMismatch), then [(x - mean_) / scale_] per column. *)
Definition transform (s : StandardScaler) (X : list (list pyval))
  : raises (list (list pyfloat)) :=
  Xf ← mapR validate_row X;
  mapR (fun row =>
          if decide (length row = length (mean_ s)
                     /\ length (scale_ s) = length (mean_ s))
          then Return (scale_row row (mean_ s) (scale_ s))
          else Raise (mkExc ValueError
                        ("X has " +:+ pretty (length row)
                         +:+ " features, but StandardScaler is expecting "
                         +:+ pretty (length (mean_ s))
                         +:+ " features as input."))) Xf.

(** ** Regression model

    A fitted keras model, seen through the one call the service makes:
    [model.predict(X, verbose=0)[0][0]]. *)

Record Model := mkModel {
  predict : list (list pyfloat) -> raises pyfloat
}.

(** ** Artifact files and the module-level cache *)

(** What a reader finds at one path: [None] when the file does not exist,
    [Some (Raise e)] when loading it raises [e], [Some (Return a)] when it
    loads to [a]. *)
Record FileSystem := mkFS {
  model_file : option (raises Model);
  scaler_file : option (raises StandardScaler);
  metadata_file : option (raises pyval)
}.

(** The path separator, [/]. *)
Definition sep : Ascii.ascii := Ascii.ascii_of_nat 47.

Definition starts_with_sep (s : string) : bool :=
  match s with
  | String c _ => Ascii.eqb c sep
  | EmptyString => false
  end.

Fixpoint ends_with_sep (s : string) : bool :=
  match s with
  | EmptyString => false
  | String c EmptyString => Ascii.eqb c sep
  | String _ s' => ends_with_sep s'
  end.

(** [os.path.join(a, b)] on a POSIX system: an absolute [b] replaces [a];
    no separator is added after an empty [a] or one that ends in a
    separator. *)
Definition os_path_join (a b : string) : string :=
  if starts_with_sep b then b
  else if String.eqb a "" || ends_with_sep a then a +:+ b
  else a +:+ "/" +:+ b.

(** [here] is [os.path.dirname(__file__)], the same directory for both
    scripts. *)
Definition model_dir (here : string) : string := os_path_join here "models".
Definition model_path (here : string) : string :=
  os_path_join (model_dir here) "nsm_model.keras".
Definition scaler_path (here : string) : string :=
  os_path_join (model_dir here) "scaler.pkl".
Definition metadata_path (here : string) : string :=
  os_path_join (model_dir here) "metadata.json".

(** The globals [_model], [_scaler], [_metadata]. *)
Record Cache := mkCache {
  _model : option Model;
  _scaler : option StandardScaler;
  _metadata : pyval
}.

Definition initial_cache : Cache :=
  {| _model := None; _scaler := None; _metadata := VNone |}.

(** [open(path, ...)] followed by the loader. *)
Definition open_and_load {A} (path : string) (f : option (raises A)) : raises A :=
  match f with
  | None => Raise (mkExc FileNotFoundError
                     ("[Errno 2] No such file or directory: '" +:+ path +:+ "'"))
  | Some r => r
  end.

(** [load_model()]: each global is assigned as soon as its file is loaded,
    and only an empty [_model] triggers loading. *)
Definition load_model (here : string) (fs : FileSystem) (c : Cache)
  : raises (Model * option StandardScaler * pyval) * Cache :=
  match _model c with
  | Some m => (Return (m, _scaler c, _metadata c), c)
  | None =>
      match model_file fs with
      | None =>
          (Raise (mkExc FileNotFoundError
                    ("Model not found at " +:+ model_path here
                     +:+ ". Train model first.")), c)
      | Some (Raise e) => (Raise e, c)
      | Some (Return m) =>
          let c1 := {| _model := Some m; _scaler := _scaler c;
                       _metadata := _metadata c |} in
          match open_and_load (scaler_path here) (scaler_file fs) with
          | Raise e => (Raise e, c1)
          | Return s =>
              let c2 := {| _model := Some m; _scaler := Some s;
                           _metadata := _metadata c |} in
              match open_and_load (metadata_path here) (metadata_file fs) with
              | Raise e => (Raise e, c2)
              | Return md =>
                  let c3 := {| _model := Some m; _scaler := Some s;
                               _metadata := md |} in
                  (Return (m, Some s, md), c3)
              end
          end
      end
  end.

(** ** Prediction service *)

(** [scaler.transform(X)] on the cached scaler, which is [None] when it was
    never loaded. *)
Definition scaler_transform (scaler : option StandardScaler)
    (X : list (list pyval)) : raises (list (list pyfloat)) :=
  match scaler with
  | Some s => transform s X
  | None => Raise (mkExc AttributeError
                     "'NoneType' object has no attribute 'transform'")
  end.

(** [v * 2] *)
Definition py_mul2 (v : pyval) : raises pyval :=
  match v with
  | VNum x => Return (VNum (fmul x (Fin 2)))
  | VBool b => Return (num (if b then 2 else 0))
  | VStr s => Return (VStr (s +:+ s))
  | VList l => Return (VList (l ++ l))
  | VNone | VDict _ =>
      Raise (mkExc TypeError
               ("unsupported operand type(s) for *: '" +:+ type_name v
                +:+ "' and 'int'"))
  end.

(** [x - v] for a float [x] *)
Definition py_rsub (x : pyfloat) (v : pyval) : raises pyfloat :=
  match v with
  | VNum y => Return (fsub x y)
  | _ => Raise (mkExc TypeError
                  ("unsupported operand type(s) for -: 'float' and '"
                   +:+ type_name v +:+ "'"))
  end.

Definition is_zero (x : pyfloat) : bool :=
  match x with
  | Fin q => Qeq_bool q 0
  | _ => false
  end.

(** Python's [x / v] for a float [x]: a zero divisor raises. *)
Definition py_truediv (x : pyfloat) (v : pyval) : raises pyfloat :=
  match v with
  | VNum y =>
      if is_zero y then Raise (mkExc ZeroDivisionError "float division by zero")
      else Return (np_div x y)
  | _ => Raise (mkExc TypeError
                  ("unsupported operand type(s) for /: 'float' and '"
                   +:+ type_name v +:+ "'"))
  end.

(** The confidence lines of [predict_interval]. *)
Definition confidence_of (predicted_interval : pyfloat) (feature_data : pyval)
  : raises pyfloat :=
  current_interval ← py_get feature_data "current_interval" (num 1);
  typical_interval ← py_mul2 current_interval;
  diff ← py_rsub predicted_interval typical_interval;
  uncertainty ← py_truediv (fabs diff) typical_interval;
  Return (py_max (Fin (1#2)) (fsub (Fin 1) (fmul uncertainty (Fin (1#2))))).

(** The body of the [try] block once [load_model()] has returned. *)
Definition predict_with (bundle : Model * option StandardScaler * pyval)
    (feature_data : pyval) : raises pydict :=
  let '(model, scaler, metadata) := bundle in
  features ← feature_vector feature_data;
  let X := [features] in
  X_scaled ← scaler_transform scaler X;
  prediction ← predict model X_scaled;
  let predicted_interval := np_clip prediction (Fin 1) (Fin 180) in
  confidence ← confidence_of predicted_interval feature_data;
  model_version ← py_get metadata "model_version" VNone;
  trained_at ← py_get metadata "trained_at" VNone;
  Return (<["success" := VBool true]>
         (<["predicted_interval" := VNum predicted_interval]>
         (<["confidence" := VNum confidence]>
         (<["model_version" := model_version]>
         (<["trained_at" := trained_at]>
         (<["method" := VStr "neural_network"]> ∅)))))).

(** The whole [try] block: its outcome and the cache it leaves. *)
Definition predict_body (here : string) (fs : FileSystem)
    (feature_data : pyval) (c : Cache) : raises pydict * Cache :=
  let '(loaded, c') := load_model here fs c in
  (bundle ← loaded; predict_with bundle feature_data, c').

(** The dict of the two [except] clauses. *)
Definition failure_dict (error : string) : pydict :=
  <["success" := VBool false]>
  (<["error" := VStr error]>
  (<["fallback_to_rules" := VBool true]> ∅)).

(** [except FileNotFoundError] is tried first, then [except Exception]. *)
Definition handle (e : PyExc) : pydict :=
  if is_FileNotFoundError e then failure_dict (str_exc e)
  else failure_dict ("Prediction error: " +:+ str_exc e).

Definition predict_interval (here : string) (fs : FileSystem)
    (feature_data : pyval) (c : Cache) : pydict * Cache :=
  let '(outcome, c') := predict_body here fs feature_data c in
  (match outcome with
   | Return result => result
   | Raise e => handle e
   end, c').

(** [get_model_status()] *)
Definition get_model_status (here : string) (fs : FileSystem) (c : Cache)
  : pydict * Cache :=
  let '(loaded, c') := load_model here fs c in
  let status :=
    '(_, _, metadata) ← loaded;
    model_version ← py_get metadata "model_version" VNone;
    trained_at ← py_get metadata "trained_at" VNone;
    training_samples ← py_get metadata "training_samples" VNone;
    validation_mae ← py_get metadata "val_mae" VNone;
    Return (<["success" := VBool true]>
           (<["model_available" := VBool true]>
           (<["model_version" := model_version]>
           (<["trained_at" := trained_at]>
           (<["training_samples" := training_samples]>
           (<["validation_mae" := validation_mae]> ∅)))))) in
  (match status with
   | Return result => result
   | Raise _ =>
       <["success" := VBool true]>
       (<["model_available" := VBool false]>
       (<["message" := VStr "Model not trained yet. Using rule-based fallback."]> ∅))
   end, c').

(** ** Bundles used in the scenarios *)

(** A scaler with location 0 and scale 1 in every one of the 17 columns. *)
Definition identity_scaler : StandardScaler :=
  {| mean_ := replicate 17 (Fin 0); scale_ := replicate 17 (Fin 1) |}.

(** A model that returns input feature 8, [current_interval], of the single
    row it is given. *)
Definition feature8_model : Model :=
  {| predict := fun X =>
       match X with
       | [row] =>
           match row !! 7%nat with
           | Some x => Return x
           | None => Raise (mkExc IndexError "index 7 is out of bounds")
           end
       | _ => Raise (mkExc ValueError "expected a batch of one row")
       end |}.

Definition bundle_fs (m : Model) (s : StandardScaler) (md : pyval) : FileSystem :=
  {| model_file := Some (Return m);
     scaler_file := Some (Return s);
     metadata_file := Some (Return md) |}.

Definition no_bundle_fs : FileSystem :=
  {| model_file := None; scaler_file := None; metadata_file := None |}.

(** A directory with the model and the scaler but no metadata file. *)
Definition no_metadata_fs : FileSystem :=
  {| model_file := Some (Return feature8_model);
     scaler_file := Some (Return identity_scaler);
     metadata_file := None |}.

(** A directory with the model file alone. *)
Definition model_only_fs : FileSystem :=
  {| model_file := Some (Return feature8_model);
     scaler_file := None;
     metadata_file := None |}.

Definition sample_metadata : pyval :=
  VDict (<["model_version" := VStr "1.0"]>
        (<["trained_at" := VStr "2025-01-01T00:00:00"]> ∅)).

(** ** Training pipeline *)

(** One row of [ml_training_data]: [feature_data], [outcome_data],
    [recorded_at]. *)
Definition Row : Type := pyval * pyval * pyval.

(** An open connection, seen through the one query the pipeline runs:
    the SELECT on [ml_training_data] ordered by [recorded_at DESC], then
    [cursor.fetchall()]. *)
Record Connection := mkConnection {
  fetchall : raises (list Row)
}.

(** What the pipeline calls outside this repository. *)
Record TrainEnv := mkTrainEnv {
  (** [os.environ.get('DATABASE_URL')] *)
  DATABASE_URL : option string;
  (** [psycopg2.connect(url)] *)
  psycopg2_connect : string -> raises Connection;
  (** the shuffle of [train_test_split] for [n] samples under
      [random_state=42] *)
  permutation : nat -> list nat;
  (** [StandardScaler().fit(X)] *)
  scaler_fit : list (list pyval) -> raises StandardScaler;
  (** [build_model], [model.fit] with early stopping on the validation data
      and [model.evaluate]: the fitted model, [val_loss] and [val_mae] *)
  keras_train : list (list pyfloat) -> list pyval ->
                list (list pyfloat) -> list pyval ->
                raises (Model * pyfloat * pyfloat);
  (** [datetime.now().isoformat()] *)
  now_isoformat : string
}.

(** [get_db_connection()]: an unset or empty URL is refused before any
    connection is made. *)
Definition get_db_connection (env : TrainEnv) : raises Connection :=
  match DATABASE_URL env with
  | None | Some "" => Raise (mkExc ValueError "DATABASE_URL not set")
  | Some database_url => psycopg2_connect env database_url
  end.

(** The first lines of [train_nsm_model], up to [rows = cursor.fetchall()]. *)
Definition get_rows (env : TrainEnv) : raises (list Row) :=
  conn ← get_db_connection env;
  fetchall conn.

(** [extract_features(training_data)] *)
Definition extract_features (training_data : list (pyval * pyval))
  : raises (list (list pyval) * list pyval) :=
  pairs ← mapR (fun row : pyval * pyval =>
                  let '(feature_data, outcome_data) := row in
                  feature_vector ← feature_vector feature_data;
                  target_interval ← py_get outcome_data "next_interval" (num 1);
                  Return (feature_vector, target_interval)) training_data;
  Return (pairs.*1, pairs.*2).

(** [X[idx]] *)
Definition take_rows {A} (X : list A) (idx : list nat) : raises (list A) :=
  mapR (fun i => match X !! i with
                 | Some r => Return r
                 | None => Raise (mkExc IndexError
                                    ("index " +:+ pretty i +:+ " is out of bounds"))
                 end) idx.

(** [ceil(0.2 * n)] *)
Definition n_test_of (n : nat) : nat := ((n + 4) / 5)%nat.

Definition train_indices (perm : nat -> list nat) (n : nat) : list nat :=
  take (n - n_test_of n) (drop (n_test_of n) (perm n)).

Definition test_indices (perm : nat -> list nat) (n : nat) : list nat :=
  take (n_test_of n) (perm n).

(** [train_test_split(X, y, test_size=0.2, random_state=42)]: the first
    [n_test] shuffled indices are the validation split, the rest the
    training split. *)
Definition train_test_split {A B} (perm : nat -> list nat)
    (X : list A) (y : list B)
  : raises (list A * list A * list B * list B) :=
  let n := length X in
  if decide (n - n_test_of n = 0)%nat
  then Raise (mkExc ValueError "the resulting train set will be empty")
  else
    X_train ← take_rows X (train_indices perm n);
    X_val ← take_rows X (test_indices perm n);
    y_train ← take_rows y (train_indices perm n);
    y_val ← take_rows y (test_indices perm n);
    Return (X_train, X_val, y_train, y_val).

(** [X.shape[1]] of a batch *)
Definition shape1 {A} (X : list (list A)) : nat :=
  match X with
  | row :: _ => length row
  | [] => 0
  end.

Definition of_nat (n : nat) : pyval := num (inject_Z (Z.of_nat n)).

(** What the run has in hand when it reaches the save step. *)
Record Fitted := mkFitted {
  fitted_model : Model;
  fitted_scaler : StandardScaler;
  training_samples : nat;
  validation_samples : nat;
  val_mae : pyfloat;
  val_loss : pyfloat;
  feature_count : nat
}.

(** From the fetched rows to the evaluated model. *)
Definition fit_pipeline (env : TrainEnv) (rows : list Row) : raises Fitted :=
  let training_data := (fun row : Row => (row.1.1, row.1.2)) <$> rows in
  '(X, y) ← extract_features training_data;
  '(X_train, X_val, y_train, y_val) ← train_test_split (permutation env) X y;
  scaler ← scaler_fit env X_train;
  X_train_scaled ← transform scaler X_train;
  X_val_scaled ← transform scaler X_val;
  '(model, val_loss, val_mae) ←
    keras_train env X_train_scaled y_train X_val_scaled y_val;
  Return {| fitted_model := model; fitted_scaler := scaler;
            training_samples := length X_train;
            validation_samples := length X_val;
            val_mae := val_mae; val_loss := val_loss;
            feature_count := shape1 X_train_scaled |}.

(** One file written by the save step. *)
Inductive write :=
| WriteModel (m : Model)
| WriteScaler (s : StandardScaler)
| WriteMetadata (md : pyval).

Definition apply_write (fs : FileSystem) (w : write) : FileSystem :=
  match w with
  | WriteModel m =>
      {| model_file := Some (Return m); scaler_file := scaler_file fs;
         metadata_file := metadata_file fs |}
  | WriteScaler s =>
      {| model_file := model_file fs; scaler_file := Some (Return s);
         metadata_file := metadata_file fs |}
  | WriteMetadata md =>
      {| model_file := model_file fs; scaler_file := scaler_file fs;
         metadata_file := Some (Return md) |}
  end.

Definition metadata_of (env : TrainEnv) (f : Fitted) : pydict :=
  <["trained_at" := VStr (now_isoformat env)]>
  (<["training_samples" := of_nat (training_samples f)]>
  (<["validation_samples" := of_nat (validation_samples f)]>
  (<["val_mae" := VNum (val_mae f)]>
  (<["val_loss" := VNum (val_loss f)]>
  (<["model_version" := VStr "1.0"]>
  (<["feature_count" := of_nat (feature_count f)]> ∅)))))).

(** The dict returned below the threshold. *)
Definition insufficient_data (min_samples : Z) (collected : nat) : pydict :=
  <["success" := VBool false]>
  (<["error" := VStr ("Not enough training data. Need " +:+ pretty min_samples
                      +:+ ", have " +:+ pretty collected)]>
  (<["samples_collected" := of_nat collected]>
  (<["samples_needed" := num (inject_Z min_samples)]> ∅))).

(** The dict returned after the save step. *)
Definition training_summary (here : string) (f : Fitted) : pydict :=
  <["success" := VBool true]>
  (<["training_samples" := of_nat (training_samples f)]>
  (<["validation_samples" := of_nat (validation_samples f)]>
  (<["val_mae" := VNum (val_mae f)]>
  (<["val_loss" := VNum (val_loss f)]>
  (<["model_path" := VStr (model_path here)]> ∅))))).

(** [train_nsm_model(min_samples)]: the returned dict (or the exception that
    leaves the function) and the files written, in the order of the calls
    [model.save], [pickle.dump], [json.dump]. *)
Definition train_nsm_model (here : string) (env : TrainEnv) (min_samples : Z)
  : raises pydict * list write :=
  match get_rows env with
  | Raise e => (Raise e, [])
  | Return rows =>
      if decide (Z.of_nat (length rows) < min_samples)%Z
      then (Return (insufficient_data min_samples (length rows)), [])
      else
        match fit_pipeline env rows with
        | Raise e => (Raise e, [])
        | Return f =>
            (Return (training_summary here f),
             [WriteModel (fitted_model f);
              WriteScaler (fitted_scaler f);
              WriteMetadata (VDict (metadata_of env f))])
        end
  end.

(** The default of the signature and of the script's entry point. *)
Definition default_min_samples : Z := 500.

(** The artifact directory after the first [k] writes of a run. *)
Definition fs_after (fs : FileSystem) (ws : list write) (k : nat) : FileSystem :=
  foldl apply_write fs (take k ws).

(** Every state of the directory a reader can find while the run saves. *)
Definition observable_states (fs : FileSystem) (ws : list write)
  : list FileSystem :=
  fs_after fs ws <$> seq 0 (S (length ws)).

Definition run_training (here : string) (env : TrainEnv) (min_samples : Z)
    (fs : FileSystem) : raises pydict * FileSystem :=
  let '(outcome, ws) := train_nsm_model here env min_samples in
  (outcome, foldl apply_write fs ws).

(** ** The specification's formulas, for comparison with the code *)

Definition clamp (x lo hi : Q) : Q := Qmax lo (Qmin hi x).

(** [confidence = clamp(1 - 0.5 * |predicted - typical| / typical, 0.5, 1.0)]
    with [typical = current_interval * 2]. *)
Definition confidence_spec (predicted current_interval : Q) : Q :=
  let typical := current_interval * 2 in
  clamp (1 - (1#2) * Qabs (predicted - typical) / typical) (1#2) 1.

(** The documented pace encoding: fast is 2, medium is 1, slow is 0, and
    anything else, or no value, is 1. *)
Definition pace_spec (v : option pyval) : Q :=
  match v with
  | Some (VStr "fast") => 2
  | Some (VStr "medium") => 1
  | Some (VStr "slow") => 0
  | _ => 1
  end.

(** Values Python can hash, hence look up in a dict: everything of
    [pyval] but lists and dicts. *)
Definition hashable (v : pyval) : Prop :=
  match v with
  | VList _ | VDict _ => False
  | _ => True
  end.

Definition pace_hashable (d : gmap string pyval) : Prop :=
  match d !! "learning_pace" with
  | Some v => hashable v
  | None => True
  end.

(** A directory in which a reader finds a model file but no scaler file or
    no metadata file. *)
Definition torn (fs : FileSystem) : Prop :=
  is_Some (model_file fs)
  /\ (scaler_file fs = None \/ metadata_file fs = None).

(** A directory that holds a whole bundle, each file loading. *)
Definition persisted (fs : FileSystem) : Prop :=
  exists m s md, fs = bundle_fs m s md.

(** ** Environments used in the scenarios *)

Definition request (current_interval : pyval) : pyval :=
  VDict (<["current_interval" := current_interval]> ∅).

Definition example_row (current_interval next_interval : Q) : Row :=
  (request (num current_interval),
   VDict (<["next_interval" := num next_interval]> ∅),
   VStr "2025-01-01T00:00:00").

(** A stand-in for the fit that centres on the first row of the batch it
    is given and leaves the scale at 1. *)
Definition first_row_fit (X : list (list pyval)) : raises StandardScaler :=
  match X with
  | [] => Raise (mkExc ValueError "Found array with 0 sample(s)")
  | row :: _ =>
      mean ← validate_row row;
      Return {| mean_ := mean; scale_ := replicate (length mean) (Fin 1) |}
  end.

Definition example_env (rows : list Row) : TrainEnv :=
  {| DATABASE_URL := Some "postgresql://localhost/neuraplay";
     psycopg2_connect := fun _ => Return {| fetchall := Return rows |};
     permutation := fun n => seq 0 n;
     scaler_fit := first_row_fit;
     keras_train := fun _ _ _ _ => Return (feature8_model, Fin 4, Fin 2);
     now_isoformat := "2025-01-01T00:00:00" |}.

Definition five_rows : list Row :=
  [example_row 1 2; example_row 2 4; example_row 3 6; example_row 4 8;
   example_row 5 10].

(** The same data but for the first row, which the identity shuffle puts
    in the validation split. *)
Definition five_rows' : list Row :=
  [example_row 100 1; example_row 2 4; example_row 3 6; example_row 4 8;
   example_row 5 10].

Definition ten_rows : list Row := five_rows ++ five_rows.
(** ** The service over the lifetime of a process *)

(** The two entry points a caller of predict.py has. *)
Inductive call :=
| CallPredict (feature_data : pyval)
| CallStatus.

Definition serve (here : string) (fs : FileSystem) (k : call) (c : Cache)
  : pydict * Cache :=
  match k with
  | CallPredict feature_data => predict_interval here fs feature_data c
  | CallStatus => get_model_status here fs c
  end.

(** A sequence of calls in one process, each finding the artifact directory
    in the state paired with it; the answers in order and the final cache. *)
Fixpoint serve_all (here : string) (calls : list (FileSystem * call))
    (c : Cache) : list pydict * Cache :=
  match calls with
  | [] => ([], c)
  | (fs, k) :: calls' =>
      let '(answer, c1) := serve here fs k c in
      let '(answers, c2) := serve_all here calls' c1 in
      (answer :: answers, c2)
  end.

(** The globals are assigned in the order model, scaler, metadata. *)
Definition cache_ordered (c : Cache) : Prop :=
  (_model c = None -> _scaler c = None)
  /\ (_scaler c = None -> _metadata c = VNone).

(** predict.py run as a script, in a fresh process: [sys.argv], the outcome
    of [json.load(sys.stdin)] and the artifact directory give the dict that
    is printed, or the exception that ends the script. *)
Definition predict_main (here : string) (argv : list string)
    (stdin : raises pyval) (fs : FileSystem) : raises pydict :=
  match argv with
  | _ :: command :: _ =>
      if decide (command = "status")
      then Return (get_model_status here fs initial_cache).1
      else if decide (command = "predict")
      then
        feature_data ← stdin;
        Return (predict_interval here fs feature_data initial_cache).1
      else Return (<["error" := VStr ("Unknown command: " +:+ command)]> ∅)
  | _ => Return (<["error" := VStr "No command specified"]> ∅)
  end.

(** train_model.py run as a script. *)
Definition train_main (here : string) (env : TrainEnv) (fs : FileSystem)
  : raises pydict * FileSystem :=
  run_training here env 500 fs.

(** The dict [get_model_status] builds from a metadata dict. *)
Definition status_of (metadata : gmap string pyval) : pydict :=
  <["success" := VBool true]>
  (<["model_available" := VBool true]>
  (<["model_version" := default VNone (metadata !! "model_version")]>
  (<["trained_at" := default VNone (metadata !! "trained_at")]>
  (<["training_samples" := default VNone (metadata !! "training_samples")]>
  (<["validation_mae" := default VNone (metadata !! "val_mae")]> ∅))))).

(** The dict of its [except] clause. *)
Definition status_unavailable : pydict :=
  <["success" := VBool true]>
  (<["model_available" := VBool false]>
  (<["message" := VStr "Model not trained yet. Using rule-based fallback."]> ∅)).

(** Two mappings that agree on every key the builder reads. *)
Definition same_features (d1 d2 : gmap string pyval) : Prop :=
  Forall (fun k => d1 !! k = d2 !! k) feature_keys.

(** The default the builder substitutes for each key, in the order of the
    source. *)
Definition feature_defaults : list (string * pyval) :=
  [("item_difficulty", num (1#2)); ("user_mastery", num (1#2));
   ("days_since_last_review", num 0); ("response_time_seconds", num 5);
   ("quality_rating", num 3); ("repetition_count", num 0);
   ("current_ease_factor", num (5#2)); ("current_interval", num 1);
   ("hour_of_day", num 12); ("day_of_week", num 3);
   ("time_since_learning_start", num 0); ("previous_interval", num 0);
   ("learning_pace", VStr "medium"); ("cluster_mastery", num (1#2));
   ("is_quiz", num 0); ("quiz_score", num 0); ("quiz_questions_count", num 0)].

(** A shuffle that returns as many indices as it is asked for. *)
Definition shuffle_sized (perm : nat -> list nat) : Prop :=
  forall n, length (perm n) = n.

(** A shuffle that returns each index below [n] once. *)
Definition shuffle_permutes (perm : nat -> list nat) : Prop :=
  forall n, perm n ≡ₚ seq 0 n.

(** ** The training split *)

(** What the builder gives for the rows at the training indices of the
    shuffle, in order: the training split of a dataset.  An entry is [None]
    for an index outside the data. *)
Definition training_vectors (perm : nat -> list nat) (rows : list Row)
  : list (option (raises (list pyval))) :=
  (fun i => (fun row : Row => feature_vector row.1.1) <$> rows !! i)
    <$> train_indices perm (length rows).

(** Six rows whose training split under the identity shuffle is the one of
    [five_rows]: two validation rows of their own, then the same four
    rows. *)
Definition six_rows : list Row :=
  [example_row 100 1; example_row 200 1; example_row 2 4; example_row 3 6;
   example_row 4 8; example_row 5 10].

(** ** The save step on a disk where a write can fail *)

(** [train_nsm_model] lists the save calls of a run whose every save call
    returns.  On a disk where the call for [w] raises [e] when
    [disk w = Some e], the calls are made in order up to the first that
    raises: the exception, if any, and the calls that returned. *)
Fixpoint save_all (disk : write -> option PyExc) (ws : list write)
  : option PyExc * list write :=
  match ws with
  | [] => (None, [])
  | w :: ws' =>
      match disk w with
      | Some e => (Some e, [])
      | None =>
          let '(failure, saved) := save_all disk ws' in
          (failure, w :: saved)
      end
  end.

(** The run on such a disk: an exception of the save step leaves
    [train_nsm_model] in place of the summary. *)
Definition train_nsm_model_on (disk : write -> option PyExc) (here : string)
    (env : TrainEnv) (min_samples : Z) : raises pydict * list write :=
  let '(outcome, ws) := train_nsm_model here env min_samples in
  match save_all disk ws with
  | (None, saved) => (outcome, saved)
  | (Some e, saved) => (Raise e, saved)
  end.

(** A disk on which writing the scaler fails. *)
Definition scaler_write_fails (w : write) : option PyExc :=
  match w with
  | WriteScaler _ => Some (mkExc (OtherError "OSError")
                             "[Errno 28] No space left on device")
  | _ => None
  end.

(** * Properties *)

(** ** Error monad *)

Lemma bind_Return {A B} (m : raises A) (f : A -> raises B) (b : B) :
  m ≫= f = Return b -> exists a, m = Return a /\ f a = Return b.
Proof. destruct m as [a|e]; [|discriminate]. intros H. by exists a. Qed.

Section mapR.
Context {A B : Type}.
Implicit Types (f g : A -> raises B) (l : list A).

Lemma mapR_Forall2 f l (l' : list B) :
  mapR f l = Return l' -> Forall2 (fun a b => f a = Return b) l l'.
Proof.
  revert l'. induction l as [|a l IH]; intros l' H.
  - injection H as <-. constructor.
  - cbn [mapR] in H.
    apply bind_Return in H as (b & Hb & H).
    apply bind_Return in H as (bs & Hbs & H).
    injection H as <-. constructor; auto.
Qed.

Lemma mapR_ext_in f g l :
  Forall (fun a => f a = g a) l -> mapR f l = mapR g l.
Proof.
  induction 1 as [|a l Ha _ IH]; [done|].
  cbn [mapR]. by rewrite Ha, IH.
Qed.

End mapR.

(** Peels the binds of a computation known to return. *)
Ltac inv_bind H :=
  repeat (let a := fresh "a" in
          let Ha := fresh "Ha" in
          apply bind_Return in H as (a & Ha & H)).

(** ** Floats *)

Lemma fgt_Fin a b : fgt (Fin a) (Fin b) = true <-> b < a.
Proof.
  unfold fgt. destruct (Qcompare_spec a b) as [H|H|H]; split; intros H'; try done.
  - rewrite H in H'. by apply Qlt_irrefl in H'.
  - exfalso. eapply Qlt_irrefl, Qlt_trans; eauto.
Qed.

Lemma fgt_Fin_false a b : fgt (Fin a) (Fin b) = false <-> a <= b.
Proof.
  rewrite <- not_true_iff_false, fgt_Fin. split.
  - apply Qnot_lt_le.
  - apply Qle_not_lt.
Qed.

Lemma Qsign_pos q : 0 < q -> Qsign q = Gt.
Proof. intros H. unfold Qsign. by apply Qgt_alt. Qed.

Lemma is_zero_pos q : 0 < q -> is_zero (Fin q) = false.
Proof.
  intros H. unfold is_zero. apply not_true_iff_false. rewrite Qeq_bool_iff.
  intros E. rewrite E in H. by apply Qlt_irrefl in H.
Qed.

(** Clipping puts every raw output other than NaN into [1, 180]. *)
Lemma np_clip_in_range (x : pyfloat) :
  x <> NaN -> in_range 1 180 (np_clip x (Fin 1) (Fin 180)).
Proof.
  intros Hx. destruct x as [q| | |]; [| | |done].
  - unfold np_clip, np_maximum.
    destruct (fgt (Fin 1) (Fin q)) eqn:E1.
    + vm_compute. split; discriminate.
    + apply fgt_Fin_false in E1. unfold np_minimum, flt.
      destruct (fgt (Fin q) (Fin 180)) eqn:E2; simpl.
      * split; discriminate.
      * by apply fgt_Fin_false in E2.
  - vm_compute. split; discriminate.
  - vm_compute. split; discriminate.
Qed.

(** NaN goes through the clip unchanged. *)
Lemma np_clip_NaN (lo hi : pyfloat) : np_clip NaN lo hi = NaN.
Proof. reflexivity. Qed.

Lemma np_clip_cases (x : pyfloat) :
  np_clip x (Fin 1) (Fin 180) = NaN
  \/ exists p, np_clip x (Fin 1) (Fin 180) = Fin p /\ 1 <= p /\ p <= 180.
Proof.
  assert (Hx : x = NaN \/ x <> NaN) by (destruct x; auto).
  destruct Hx as [->|Hx]; [by left|right].
  apply np_clip_in_range in Hx.
  destruct (np_clip x (Fin 1) (Fin 180)) as [p| | |]; try done. by exists p.
Qed.

(** ** FeatureVector builder *)

Lemma pace_table_spec (s : string) :
  default (num 1) (pace_table !! s) = num (pace_spec (Some (VStr s))).
Proof.
  unfold pace_table.
  destruct (decide (s = "fast")) as [->|H1]; [done|].
  destruct (decide (s = "medium")) as [->|H2]; [done|].
  destruct (decide (s = "slow")) as [->|H3]; [done|].
  rewrite !lookup_insert_ne, lookup_empty by done.
  unfold pace_spec. repeat case_match; simplify_eq; done.
Qed.

Lemma encode_pace_hashable (v : pyval) :
  hashable v -> encode_pace v = Return (num (pace_spec (Some v))).
Proof.
  destruct v; try done. intros _. cbn [encode_pace]. by rewrite pace_table_spec.
Qed.

Lemma encode_pace_default :
  encode_pace (VStr "medium") = Return (num (pace_spec None)).
Proof. reflexivity. Qed.

Lemma feature_vector_dict (d : gmap string pyval) :
  feature_vector (VDict d) =
  pace ← encode_pace (default (VStr "medium") (d !! "learning_pace"));
  Return [default (num (1#2)) (d !! "item_difficulty");
          default (num (1#2)) (d !! "user_mastery");
          default (num 0) (d !! "days_since_last_review");
          default (num 5) (d !! "response_time_seconds");
          default (num 3) (d !! "quality_rating");
          default (num 0) (d !! "repetition_count");
          default (num (5#2)) (d !! "current_ease_factor");
          default (num 1) (d !! "current_interval");
          default (num 12) (d !! "hour_of_day");
          default (num 3) (d !! "day_of_week");
          default (num 0) (d !! "time_since_learning_start");
          default (num 0) (d !! "previous_interval");
          pace;
          default (num (1#2)) (d !! "cluster_mastery");
          default (num 0) (d !! "is_quiz");
          default (num 0) (d !! "quiz_score");
          default (num 0) (d !! "quiz_questions_count")].
Proof. reflexivity. Qed.

(** A non-dict observation has no [get]. *)
Lemma feature_vector_not_dict (v : pyval) :
  (forall d, v <> VDict d) ->
  exists msg, feature_vector v = Raise (mkExc AttributeError msg).
Proof. intros H. destruct v; try (eexists; reflexivity). by destruct (H d). Qed.

(** With a hashable pace value the builder returns, and the pace entry is
    the documented code. *)
Lemma feature_vector_hashable (d : gmap string pyval) :
  pace_hashable d ->
  feature_vector (VDict d) =
  Return [default (num (1#2)) (d !! "item_difficulty");
          default (num (1#2)) (d !! "user_mastery");
          default (num 0) (d !! "days_since_last_review");
          default (num 5) (d !! "response_time_seconds");
          default (num 3) (d !! "quality_rating");
          default (num 0) (d !! "repetition_count");
          default (num (5#2)) (d !! "current_ease_factor");
          default (num 1) (d !! "current_interval");
          default (num 12) (d !! "hour_of_day");
          default (num 3) (d !! "day_of_week");
          default (num 0) (d !! "time_since_learning_start");
          default (num 0) (d !! "previous_interval");
          num (pace_spec (d !! "learning_pace"));
          default (num (1#2)) (d !! "cluster_mastery");
          default (num 0) (d !! "is_quiz");
          default (num 0) (d !! "quiz_score");
          default (num 0) (d !! "quiz_questions_count")].
Proof.
  intros Hp. rewrite feature_vector_dict.
  assert (Hpace : encode_pace (default (VStr "medium") (d !! "learning_pace"))
                  = Return (num (pace_spec (d !! "learning_pace")))).
  { unfold pace_hashable in Hp. destruct (d !! "learning_pace") as [v|].
    - by apply encode_pace_hashable.
    - apply encode_pace_default. }
  by rewrite Hpace.
Qed.

(** The all-defaults case on its own, the empty mapping included. *)
Lemma feature_vector_all_defaults (d : gmap string pyval) :
  Forall (fun k => d !! k = None) feature_keys ->
  feature_vector (VDict d) = Return default_vector.
Proof.
  intros Hnone. rewrite feature_vector_hashable.
  - unfold feature_keys in Hnone.
    repeat (apply Forall_cons in Hnone as [-> Hnone]). reflexivity.
  - unfold pace_hashable. rewrite Forall_forall in Hnone.
    rewrite (Hnone "learning_pace"); [done|].
    unfold feature_keys. repeat constructor.
Qed.

(** C7 (amended): a mapping that sets none of the 17 keys gives the
    documented all-defaults vector; the pace entry, position 13 of the
    vector, is 2 for "fast", 1 for "medium", 0 for "slow" and 1 for any
    other hashable value (string, number, boolean, null) and for an absent
    key.  The builder has no state argument and no effect: it is a function
    of the mapping alone. *)
Theorem feature_vector_defaults_and_pace (d : gmap string pyval) :
  pace_hashable d ->
  exists vec,
    feature_vector (VDict d) = Return vec
    /\ length vec = 17%nat
    /\ vec !! 12%nat = Some (num (pace_spec (d !! "learning_pace")))
    /\ (Forall (fun k => d !! k = None) feature_keys -> vec = default_vector).
Proof.
  intros Hp. eexists. split; [by apply feature_vector_hashable|].
  split; [reflexivity|]. split; [reflexivity|].
  intros Hnone. apply feature_vector_all_defaults in Hnone.
  rewrite feature_vector_hashable in Hnone by done. congruence.
Qed.

Lemma feature_vector_defaults_and_pace_witness :
  pace_hashable (<["learning_pace" := VStr "fast"]> ∅)
  /\ exists vec,
       feature_vector (VDict (<["learning_pace" := VStr "fast"]> ∅)) = Return vec
       /\ length vec = 17%nat
       /\ vec !! 12%nat = Some (num 2)
       /\ (Forall (fun k => (<["learning_pace" := VStr "fast"]> ∅ : gmap string pyval) !! k = None)
             feature_keys -> vec = default_vector).
Proof.
  split; [exact I|].
  exact (feature_vector_defaults_and_pace (<["learning_pace" := VStr "fast"]> ∅) I).
Defined.

(** C7, as stated, fails: a pace value that is a JSON array is none of the
    three known paces, yet the builder raises instead of encoding it as 1. *)
Lemma unhashable_pace_is_not_encoded :
  let d : gmap string pyval := <["learning_pace" := VList []]> ∅ in
  d !! "learning_pace" <> Some (VStr "fast")
  /\ d !! "learning_pace" <> Some (VStr "medium")
  /\ d !! "learning_pace" <> Some (VStr "slow")
  /\ feature_vector (VDict d) = Raise (mkExc TypeError "unhashable type: 'list'")
  /\ ~ (exists vec, feature_vector (VDict d) = Return vec
                    /\ vec !! 12%nat = Some (num 1)).
Proof.
  cbv zeta. repeat split; try discriminate.
  intros (vec & H & _). discriminate H.
Qed.

(** ** Prediction service *)

Section prediction_service.
Context (here : string).

(** What a returned success dict holds. *)
Lemma predict_with_Return (b : Model * option StandardScaler * pyval)
    (fd : pyval) (r : gmap string pyval) :
  predict_with b fd = Return r ->
  exists raw conf mv ta,
    confidence_of (np_clip raw (Fin 1) (Fin 180)) fd = Return conf
    /\ r = <["success" := VBool true]>
           (<["predicted_interval" := VNum (np_clip raw (Fin 1) (Fin 180))]>
           (<["confidence" := VNum conf]>
           (<["model_version" := mv]>
           (<["trained_at" := ta]>
           (<["method" := VStr "neural_network"]> ∅))))).
Proof.
  destruct b as [[model scaler] metadata]. unfold predict_with. intros H.
  apply bind_Return in H as (features & _ & H).
  apply bind_Return in H as (X_scaled & _ & H).
  apply bind_Return in H as (raw & _ & H).
  apply bind_Return in H as (conf & Hc & H).
  apply bind_Return in H as (mv & _ & H).
  apply bind_Return in H as (ta & _ & H).
  injection H as <-. by exists raw, conf, mv, ta.
Qed.

Lemma failure_dict_lookup (msg : string) :
  failure_dict msg !! "success" = Some (VBool false)
  /\ failure_dict msg !! "fallback_to_rules" = Some (VBool true)
  /\ failure_dict msg !! "error" = Some (VStr msg).
Proof. done. Qed.

Lemma handle_failure (e : PyExc) : exists msg, handle e = failure_dict msg.
Proof. unfold handle. destruct (is_FileNotFoundError e); eauto. Qed.

(** The first [raise] of [load_model]. *)
Lemma load_model_no_bundle (fs : FileSystem) (c : Cache) :
  _model c = None -> model_file fs = None ->
  load_model here fs c =
  (Raise (mkExc FileNotFoundError
            ("Model not found at " +:+ model_path here +:+ ". Train model first.")), c).
Proof. intros Hc Hf. unfold load_model. by rewrite Hc, Hf. Qed.

(** C1: [predict_interval] returns a dict for every input, and whenever the
    [try] block raises, at [load_model] for want of a bundle or at any later
    step, the dict is [{success: False, error: msg, fallback_to_rules: True}];
    without a model file and with an empty cache the message is the one of
    [load_model]. *)
Theorem predict_interval_never_raises (fs : FileSystem)
    (fd : pyval) (c : Cache) :
  let r := (predict_interval here fs fd c).1 in
  ((exists d, (predict_body here fs fd c).1 = Return d /\ r = d
              /\ r !! "success" = Some (VBool true))
   \/ (exists e msg, (predict_body here fs fd c).1 = Raise e
                     /\ r = failure_dict msg
                     /\ r !! "success" = Some (VBool false)
                     /\ r !! "fallback_to_rules" = Some (VBool true)
                     /\ r !! "error" = Some (VStr msg)))
  /\ (_model c = None -> model_file fs = None ->
      r = failure_dict ("Model not found at " +:+ model_path here
                        +:+ ". Train model first.")).
Proof.
  cbv zeta. split.
  - unfold predict_interval.
    destruct (predict_body here fs fd c) as [[d|e] c'] eqn:E; cbn [fst].
    + left. exists d. split; [done|]. split; [done|].
      unfold predict_body in E. destruct (load_model here fs c) as [[b|e] c1].
      * injection E as E _. cbn [mbind raises_bind] in E.
        apply predict_with_Return in E as (raw & conf & mv & ta & _ & ->). done.
      * discriminate.
    + right. destruct (handle_failure e) as [msg Hmsg]. exists e, msg.
      rewrite Hmsg. split; [done|]. split; [done|]. apply failure_dict_lookup.
  - intros Hc Hf. unfold predict_interval, predict_body.
    by rewrite load_model_no_bundle.
Qed.

(** C4: with the identity scaler and the model that returns feature 8, the
    request [{current_interval: 10}] is answered with predicted_interval 10
    and confidence 0.75, whatever the metadata document holds. *)
Theorem end_to_end_identity_bundle (md : gmap string pyval) :
  let r := (predict_interval here
              (bundle_fs feature8_model identity_scaler (VDict md))
              (request (num 10)) initial_cache).1 in
  r !! "success" = Some (VBool true)
  /\ r !! "predicted_interval" = Some (num 10)
  /\ r !! "confidence" = Some (num (3#4))
  /\ confidence_spec 10 10 == 3#4.
Proof. repeat split. Qed.

(** A successful result carries the clipped raw output, which is within
    [1, 180] unless the raw output is NaN. *)
Lemma predicted_interval_clipped (fs : FileSystem)
    (fd : pyval) (c : Cache) :
  let r := (predict_interval here fs fd c).1 in
  r !! "success" = Some (VBool true) ->
  exists raw,
    r !! "predicted_interval" = Some (VNum (np_clip raw (Fin 1) (Fin 180)))
    /\ (raw <> NaN -> in_range 1 180 (np_clip raw (Fin 1) (Fin 180))).
Proof.
  cbv zeta. unfold predict_interval, predict_body.
  destruct (load_model here fs c) as [[b|e] c1]; cbn [mbind raises_bind fst].
  - destruct (predict_with b fd) as [d|e] eqn:E.
    + apply predict_with_Return in E as (raw & conf & mv & ta & _ & ->).
      intros _. exists raw. split; [done|]. apply np_clip_in_range.
    + destruct (handle_failure e) as [msg ->]. discriminate.
  - destruct (handle_failure e) as [msg ->]. discriminate.
Qed.

(** C6 fails at a NaN raw output: the request [{current_interval: NaN}]
    against the identity scaler and the model that returns feature 8 is
    answered with success and a predicted_interval that is NaN, outside
    [1, 180]. *)
Theorem nan_prediction_escapes_clip (md : gmap string pyval) :
  let r := (predict_interval here
              (bundle_fs feature8_model identity_scaler (VDict md))
              (request (VNum NaN)) initial_cache).1 in
  r !! "success" = Some (VBool true)
  /\ r !! "predicted_interval" = Some (VNum NaN)
  /\ r !! "confidence" = Some (num (1#2))
  /\ ~ in_range 1 180 NaN.
Proof. repeat split. intros []. Qed.

(** The confidence lines divide by [typical_interval] unguarded. *)
Lemma confidence_of_zero_interval (p : pyfloat) (q : Q) (d : gmap string pyval) :
  d !! "current_interval" = Some (num q) ->
  q == 0 ->
  confidence_of p (VDict d)
  = Raise (mkExc ZeroDivisionError "float division by zero").
Proof.
  intros Hd Hq. unfold confidence_of. cbn [py_get]. rewrite Hd.
  cbn [default from_option id mbind raises_bind num py_mul2 fmul].
  assert (Hz : is_zero (Fin (Qred (q * 2))) = true).
  { unfold is_zero. apply Qeq_bool_iff. rewrite Qred_correct, Hq. reflexivity. }
  destruct p; cbn [py_rsub fsub mbind raises_bind fabs py_truediv]; by rewrite Hz.
Qed.

(** C2 fails at [current_interval = 0]: no exception leaves the service, but
    there is no confidence of 0.5 either: the division by zero is caught by
    the generic handler and the clipped prediction is dropped for the
    fallback shape. *)
Theorem zero_interval_loses_prediction (md : gmap string pyval) :
  (predict_interval here
     (bundle_fs feature8_model identity_scaler (VDict md))
     (request (num 0)) initial_cache).1
  = failure_dict "Prediction error: float division by zero".
Proof. reflexivity. Qed.

(** With a negative [current_interval] the confidence leaves the range the
    code's comment gives for it. *)
Lemma negative_interval_confidence (md : gmap string pyval) :
  let r := (predict_interval here
              (bundle_fs feature8_model identity_scaler (VDict md))
              (request (num (-1))) initial_cache).1 in
  r !! "success" = Some (VBool true)
  /\ r !! "predicted_interval" = Some (num 1)
  /\ r !! "confidence" = Some (num (7#4)).
Proof. repeat split. Qed.

(** For a finite prediction and a positive [current_interval] the code's
    [max(0.5, 1.0 - uncertainty * 0.5)] is the clamp of the specification. *)
Lemma confidence_of_finite (p q : Q) (d : gmap string pyval) :
  d !! "current_interval" = Some (num q) ->
  0 < q ->
  exists c, confidence_of (Fin p) (VDict d) = Return (Fin c)
            /\ c == confidence_spec p q
            /\ 1#2 <= c /\ c <= 1.
Proof.
  intros Hd Hq.
  assert (Ht : 0 < Qred (q * 2)).
  { rewrite Qred_correct. lra. }
  unfold confidence_of. cbn [py_get]. rewrite Hd.
  cbn [default from_option id mbind raises_bind num py_mul2 fmul py_rsub fsub
       fabs py_truediv].
  rewrite (is_zero_pos _ Ht). cbn [np_div]. rewrite (Qsign_pos _ Ht).
  cbn [mbind raises_bind fmul fsub mret raises_ret].
  set (u := Qred (Qred (Qabs (Qred (p - Qred (q * 2)))) / Qred (q * 2))).
  assert (Hu : u == Qabs (p - q * 2) / (q * 2)).
  { unfold u. by rewrite !Qred_correct. }
  assert (Hu0 : 0 <= u).
  { rewrite Hu. apply Qle_shift_div_l; [lra|]. rewrite Qmult_0_l. apply Qabs_nonneg. }
  set (v := Qred (1 - Qred (u * (1 # 2)))).
  assert (Hv : v == 1 - (1#2) * Qabs (p - q * 2) / (q * 2)).
  { unfold v. rewrite !Qred_correct, Hu. field. lra. }
  assert (Hv1 : v <= 1).
  { unfold v. rewrite !Qred_correct. lra. }
  unfold py_max. destruct (fgt (Fin v) (Fin (1#2))) eqn:E.
  - apply fgt_Fin in E. exists v. split; [done|]. split; [|split; [lra|done]].
    unfold confidence_spec, clamp. cbv zeta. rewrite <- Hv.
    rewrite (Q.min_r 1 v) by done. rewrite Q.max_r by lra. reflexivity.
  - apply fgt_Fin_false in E. exists (1#2). split; [done|]. split; [|split; lra].
    unfold confidence_spec, clamp. cbv zeta. rewrite <- Hv.
    rewrite (Q.min_r 1 v) by done. rewrite Q.max_l by lra. reflexivity.
Qed.

(** Whatever the raw output, a positive [current_interval] gives a
    confidence in [0.5, 1.0]. *)
Lemma confidence_of_positive_interval (raw : pyfloat) (q : Q)
    (d : gmap string pyval) :
  d !! "current_interval" = Some (num q) ->
  0 < q ->
  exists c, confidence_of (np_clip raw (Fin 1) (Fin 180)) (VDict d)
            = Return (Fin c)
            /\ 1#2 <= c /\ c <= 1.
Proof.
  intros Hd Hq. destruct (np_clip_cases raw) as [->|(p & -> & _)].
  - assert (Ht : 0 < Qred (q * 2)).
    { rewrite Qred_correct. lra. }
    unfold confidence_of. cbn [py_get]. rewrite Hd.
    cbn [default from_option id mbind raises_bind num py_mul2 fmul py_rsub fsub
         fabs py_truediv].
    rewrite (is_zero_pos _ Ht). exists (1#2). split; [done|]. split; lra.
  - destruct (confidence_of_finite p q d Hd Hq) as (c & Hc & _ & Hlo & Hhi).
    by exists c.
Qed.

(** *** The cache *)

(** Once [_model] is set, [load_model] hands out the cache and reads no
    file. *)
Lemma load_model_cached (fs : FileSystem) (c : Cache) (m : Model) :
  _model c = Some m ->
  load_model here fs c = (Return (m, _scaler c, _metadata c), c).
Proof. intros H. unfold load_model. by rewrite H. Qed.

(** Against a whole bundle, loading succeeds and a second call returns the
    same trio. *)
Lemma load_model_persisted (fs : FileSystem) (c : Cache) :
  persisted fs ->
  exists b c1,
    load_model here fs c = (Return b, c1)
    /\ load_model here fs c1 = (Return b, c1).
Proof.
  intros (m & s & md & ->). destruct (_model c) as [m'|] eqn:E.
  - exists (m', _scaler c, _metadata c), c.
    by rewrite !(load_model_cached _ _ m').
  - exists (m, Some s, md),
      {| _model := Some m; _scaler := Some s; _metadata := md |}.
    split.
    + unfold load_model. by rewrite E.
    + by apply load_model_cached.
Qed.

(** C9: two consecutive calls of [predict_interval] with the same input,
    against the same persisted bundle, return the same dict, whatever the
    cache held before the first call. *)
Theorem consecutive_predictions_agree (fs : FileSystem)
    (fd : pyval) (c : Cache) :
  persisted fs ->
  let first := predict_interval here fs fd c in
  let second := predict_interval here fs fd first.2 in
  second.1 = first.1 /\ second.2 = first.2.
Proof.
  intros Hfs. cbv zeta.
  destruct (load_model_persisted fs c Hfs) as (b & c1 & H1 & H2).
  unfold predict_interval, predict_body. rewrite H1. cbn [snd fst].
  by rewrite H2.
Qed.

(** C10 (amended): when the first [load_model] of a process fails after the
    model file was loaded, the cache keeps the model and whatever else was
    assigned before the failure: nothing more when the scaler load failed,
    the scaler when only the metadata load failed.  Any later call returns
    that cached trio, [(model, None, None)] or [(model, scaler, None)],
    without raising and without reading a file, whatever the directory
    holds by then. *)
Theorem failed_load_keeps_partial_cache (fs fs' : FileSystem)
    (e : PyExc) (c1 : Cache) (m : Model) :
  load_model here fs initial_cache = (Raise e, c1) ->
  model_file fs = Some (Return m) ->
  ((open_and_load (scaler_path here) (scaler_file fs) = Raise e
    /\ c1 = {| _model := Some m; _scaler := None; _metadata := VNone |})
   \/ (exists s, open_and_load (scaler_path here) (scaler_file fs) = Return s
                 /\ open_and_load (metadata_path here) (metadata_file fs) = Raise e
                 /\ c1 = {| _model := Some m; _scaler := Some s;
                            _metadata := VNone |}))
  /\ load_model here fs' c1 = (Return (m, _scaler c1, _metadata c1), c1).
Proof.
  intros Hload Hm. unfold load_model in Hload. cbn [_model initial_cache] in Hload.
  rewrite Hm in Hload.
  destruct (open_and_load (scaler_path here) (scaler_file fs)) as [s|es].
  - destruct (open_and_load (metadata_path here) (metadata_file fs)) as [md|em];
      [discriminate|].
    injection Hload as -> <-. split.
    + right. by exists s.
    + by apply load_model_cached.
  - injection Hload as -> <-. split.
    + by left.
    + by apply load_model_cached.
Qed.


End prediction_service.

(** *** Scenarios of the prediction service *)

Lemma predict_interval_never_raises_witness :
  _model initial_cache = None /\ model_file no_bundle_fs = None
  /\ (predict_interval "/srv/ml" no_bundle_fs (VDict ∅) initial_cache).1
     = failure_dict "Model not found at /srv/ml/models/nsm_model.keras. Train model first.".
Proof.
  split; [reflexivity|]. split; [reflexivity|].
  exact (proj2 (predict_interval_never_raises "/srv/ml" no_bundle_fs (VDict ∅)
                  initial_cache) eq_refl eq_refl).
Defined.

Lemma consecutive_predictions_agree_witness :
  persisted (bundle_fs feature8_model identity_scaler sample_metadata)
  /\ (predict_interval "/srv/ml"
        (bundle_fs feature8_model identity_scaler sample_metadata)
        (request (num 10))
        (predict_interval "/srv/ml"
           (bundle_fs feature8_model identity_scaler sample_metadata)
           (request (num 10)) initial_cache).2).1
     = (predict_interval "/srv/ml"
          (bundle_fs feature8_model identity_scaler sample_metadata)
          (request (num 10)) initial_cache).1.
Proof.
  assert (H : persisted (bundle_fs feature8_model identity_scaler sample_metadata)).
  { exists feature8_model, identity_scaler, sample_metadata. reflexivity. }
  split; [exact H|].
  exact (proj1 (consecutive_predictions_agree "/srv/ml" _ (request (num 10))
                  initial_cache H)).
Defined.

(** C10, as stated, fails when only the metadata file is missing: the
    first call raises after the model and the scaler were cached, and the
    next call returns the model with that scaler, not with [None]. *)
Lemma metadata_failure_keeps_scaler :
  let first := load_model "/srv/ml" no_metadata_fs initial_cache in
  let second := load_model "/srv/ml" no_metadata_fs first.2 in
  first.1 = Raise (mkExc FileNotFoundError
                     "[Errno 2] No such file or directory: '/srv/ml/models/metadata.json'")
  /\ second.1 = Return (feature8_model, Some identity_scaler, VNone)
  /\ second.1 <> Return (feature8_model, None, VNone).
Proof. cbv zeta. split; [reflexivity|]. split; [reflexivity|]. discriminate. Qed.

Lemma failed_load_keeps_partial_cache_witness :
  load_model "/srv/ml" model_only_fs initial_cache
  = (Raise (mkExc FileNotFoundError
              "[Errno 2] No such file or directory: '/srv/ml/models/scaler.pkl'"),
     {| _model := Some feature8_model; _scaler := None; _metadata := VNone |})
  /\ model_file model_only_fs = Some (Return feature8_model)
  /\ load_model "/srv/ml" (bundle_fs feature8_model identity_scaler sample_metadata)
       {| _model := Some feature8_model; _scaler := None; _metadata := VNone |}
     = (Return (feature8_model, None, VNone),
        {| _model := Some feature8_model; _scaler := None; _metadata := VNone |}).
Proof.
  split; [reflexivity|]. split; [reflexivity|].
  exact (proj2 (failed_load_keeps_partial_cache "/srv/ml" model_only_fs
                  (bundle_fs feature8_model identity_scaler sample_metadata)
                  _ _ feature8_model eq_refl eq_refl)).
Defined.

(** With the model file alone the two answers to one request differ: the
    first reports the missing scaler file, the second the missing
    [transform] of the cached [None]. *)
Lemma partial_bundle_answers_differ :
  let first := predict_interval "/srv/ml" model_only_fs (request (num 10))
                 initial_cache in
  let second := predict_interval "/srv/ml" model_only_fs (request (num 10))
                  first.2 in
  first.1 = failure_dict "[Errno 2] No such file or directory: '/srv/ml/models/scaler.pkl'"
  /\ second.1 = failure_dict "Prediction error: 'NoneType' object has no attribute 'transform'".
Proof. cbv zeta. split; reflexivity. Qed.

(** ** Training pipeline *)

(** The three outcomes of a run. *)
Lemma train_nsm_model_cases (here : string) (env : TrainEnv) (min_samples : Z) :
  (exists e, train_nsm_model here env min_samples = (Raise e, []))
  \/ (exists rows,
        get_rows env = Return rows
        /\ (Z.of_nat (length rows) < min_samples)%Z
        /\ train_nsm_model here env min_samples
           = (Return (insufficient_data min_samples (length rows)), []))
  \/ (exists rows f r,
        get_rows env = Return rows
        /\ ~ (Z.of_nat (length rows) < min_samples)%Z
        /\ fit_pipeline env rows = Return f
        /\ r !! "success" = Some (VBool true)
        /\ train_nsm_model here env min_samples
           = (Return r, [WriteModel (fitted_model f);
                         WriteScaler (fitted_scaler f);
                         WriteMetadata (VDict (metadata_of env f))])).
Proof.
  unfold train_nsm_model. destruct (get_rows env) as [rows|e]; [|left; eauto].
  case_decide as Hlt.
  - right; left. by exists rows.
  - destruct (fit_pipeline env rows) as [f|e] eqn:Hf; [|left; eauto].
    right; right. exists rows, f, (training_summary here f). done.
Qed.

(** C5: when fewer rows than [min_samples] are retrieved the pipeline
    returns [{success: False, error, samples_collected: len(rows),
    samples_needed: min_samples}] and performs no write: the artifact
    directory is left as it was. *)
Theorem insufficient_data_writes_nothing (here : string) (env : TrainEnv)
    (min_samples : Z) (rows : list Row) (fs : FileSystem) :
  get_rows env = Return rows ->
  (Z.of_nat (length rows) < min_samples)%Z ->
  exists r,
    run_training here env min_samples fs = (Return r, fs)
    /\ (train_nsm_model here env min_samples).2 = []
    /\ observable_states fs (train_nsm_model here env min_samples).2 = [fs]
    /\ r !! "success" = Some (VBool false)
    /\ r !! "samples_collected" = Some (of_nat (length rows))
    /\ r !! "samples_needed" = Some (num (inject_Z min_samples))
    /\ is_Some (r !! "error")
    /\ dom r = {["success"; "error"; "samples_collected"; "samples_needed"]}.
Proof.
  intros Hrows Hlt. exists (insufficient_data min_samples (length rows)).
  assert (H : train_nsm_model here env min_samples
              = (Return (insufficient_data min_samples (length rows)), [])).
  { unfold train_nsm_model. rewrite Hrows. by rewrite decide_True. }
  unfold run_training. rewrite H. cbn [snd foldl].
  repeat split; done.
Qed.

Lemma insufficient_data_writes_nothing_witness :
  get_rows (example_env ten_rows) = Return ten_rows
  /\ (Z.of_nat (length ten_rows) < default_min_samples)%Z
  /\ exists r,
       run_training "/srv/ml" (example_env ten_rows) default_min_samples no_bundle_fs
       = (Return r, no_bundle_fs)
       /\ (train_nsm_model "/srv/ml" (example_env ten_rows) default_min_samples).2 = []
       /\ observable_states no_bundle_fs
            (train_nsm_model "/srv/ml" (example_env ten_rows) default_min_samples).2
          = [no_bundle_fs]
       /\ r !! "success" = Some (VBool false)
       /\ r !! "samples_collected" = Some (num 10)
       /\ r !! "samples_needed" = Some (num 500)
       /\ is_Some (r !! "error")
       /\ dom r = {["success"; "error"; "samples_collected"; "samples_needed"]}.
Proof.
  split; [reflexivity|]. split; [reflexivity|].
  exact (insufficient_data_writes_nothing "/srv/ml" (example_env ten_rows)
           default_min_samples ten_rows no_bundle_fs eq_refl eq_refl).
Defined.

(** C3, as stated, fails: the first training run into an empty directory
    passes through a state in which the model file is there and neither the
    scaler file nor the metadata file is. *)
Lemma save_exposes_model_without_scaler :
  let ws := (train_nsm_model "/srv/ml" (example_env five_rows) 5).2 in
  ~ torn no_bundle_fs
  /\ fs_after no_bundle_fs ws 1 ∈ observable_states no_bundle_fs ws
  /\ torn (fs_after no_bundle_fs ws 1).
Proof.
  cbv zeta. split; [|split].
  - intros [[x Hx] _]. discriminate Hx.
  - unfold observable_states. apply list_elem_of_fmap. exists 1%nat.
    split; [done|]. vm_compute. right. left.
  - split; [by eexists|by left].
Qed.

(** C3 (amended): a run that returns success has written the three files
    one after the other, model first, then scaler, then metadata; a reader
    finds, in this order, the directory as it was, the new model beside the
    previous scaler and metadata, the new model and scaler beside the
    previous metadata, and the whole new bundle, which replaces the
    previous one. *)
Theorem save_order_and_final_bundle (here : string) (env : TrainEnv)
    (min_samples : Z) (fs : FileSystem) (r : gmap string pyval) :
  (train_nsm_model here env min_samples).1 = Return r ->
  r !! "success" = Some (VBool true) ->
  exists rows f,
    get_rows env = Return rows
    /\ fit_pipeline env rows = Return f
    /\ (train_nsm_model here env min_samples).2
       = [WriteModel (fitted_model f); WriteScaler (fitted_scaler f);
          WriteMetadata (VDict (metadata_of env f))]
    /\ observable_states fs (train_nsm_model here env min_samples).2
       = [fs;
          {| model_file := Some (Return (fitted_model f));
             scaler_file := scaler_file fs;
             metadata_file := metadata_file fs |};
          {| model_file := Some (Return (fitted_model f));
             scaler_file := Some (Return (fitted_scaler f));
             metadata_file := metadata_file fs |};
          bundle_fs (fitted_model f) (fitted_scaler f)
            (VDict (metadata_of env f))]
    /\ (run_training here env min_samples fs).2
       = bundle_fs (fitted_model f) (fitted_scaler f) (VDict (metadata_of env f)).
Proof.
  intros Hr Hs.
  destruct (train_nsm_model_cases here env min_samples)
    as [(e & H) | [(rows & _ & _ & H) | (rows & f & r' & Hrows & _ & Hf & _ & H)]].
  - rewrite H in Hr. discriminate.
  - rewrite H in Hr. injection Hr as <-. discriminate.
  - exists rows, f. unfold run_training. rewrite H. done.
Qed.

Lemma save_order_and_final_bundle_witness :
  exists r,
    (train_nsm_model "/srv/ml" (example_env five_rows) 5).1 = Return r
    /\ r !! "success" = Some (VBool true)
    /\ exists s md,
         (run_training "/srv/ml" (example_env five_rows) 5
            (bundle_fs feature8_model identity_scaler sample_metadata)).2
         = bundle_fs feature8_model s md.
Proof.
  eexists. split; [reflexivity|]. split; [reflexivity|].
  destruct (save_order_and_final_bundle "/srv/ml" (example_env five_rows) 5
              (bundle_fs feature8_model identity_scaler sample_metadata) _
              eq_refl eq_refl)
    as (rows & f & Hrows & Hf & _ & _ & H).
  exists (fitted_scaler f), (VDict (metadata_of (example_env five_rows) f)).
  rewrite H. injection Hrows as <-. vm_compute in Hf. injection Hf as <-.
  reflexivity.
Defined.

(** *** The scaler sees the training split only *)

Lemma take_rows_ext {A} (X1 X2 : list A) (idx : list nat) :
  Forall (fun i => X1 !! i = X2 !! i) idx ->
  take_rows X1 idx = take_rows X2 idx.
Proof.
  intros H. unfold take_rows. apply mapR_ext_in.
  eapply Forall_impl; [exact H|]. intros i Hi. cbv beta in Hi. by rewrite Hi.
Qed.

(** Row [i] of the feature matrix is the vector built from row [i] of the
    data. *)
Lemma extract_features_rows (training_data : list (pyval * pyval))
    (X : list (list pyval)) (y : list pyval) :
  extract_features training_data = Return (X, y) ->
  Forall2 (fun row x => feature_vector row.1 = Return x) training_data X.
Proof.
  unfold extract_features. intros H.
  apply bind_Return in H as (pairs & Hp & H). injection H as <- <-.
  apply mapR_Forall2 in Hp. apply Forall2_fmap_r.
  eapply Forall2_impl; [exact Hp|].
  intros [fd od] [x t] Hrow. cbn [fst] in *.
  inv_bind Hrow. by injection Hrow as <- <-.
Qed.

(** The scaler of a run is the fit of the rows selected by the training
    indices. *)
Lemma fit_pipeline_scaler (env : TrainEnv) (rows : list Row) (f : Fitted) :
  fit_pipeline env rows = Return f ->
  exists X X_train,
    Forall2 (fun (row : Row) x => feature_vector row.1.1 = Return x) rows X
    /\ take_rows X (train_indices (permutation env) (length X)) = Return X_train
    /\ scaler_fit env X_train = Return (fitted_scaler f).
Proof.
  unfold fit_pipeline. intros H.
  apply bind_Return in H as ([X y] & HX & H).
  apply bind_Return in H as ([[[X_train X_val] y_train] y_val] & Hsplit & H).
  apply bind_Return in H as (scaler & Hfit & H).
  apply bind_Return in H as (X_train_scaled & _ & H).
  apply bind_Return in H as (X_val_scaled & _ & H).
  apply bind_Return in H as ([[model vl] vm] & _ & H).
  injection H as <-. cbn [fitted_scaler].
  exists X, X_train. split; [|split; [|done]].
  - apply extract_features_rows in HX. by apply Forall2_fmap_l in HX.
  - unfold train_test_split in Hsplit. case_decide; [discriminate|].
    inv_bind Hsplit. by injection Hsplit as <- _ _ _.
Qed.

Lemma write_scaler_of_run (here : string) (env : TrainEnv) (min_samples : Z)
    (s : StandardScaler) :
  WriteScaler s ∈ (train_nsm_model here env min_samples).2 ->
  exists rows f, get_rows env = Return rows
                 /\ fit_pipeline env rows = Return f
                 /\ s = fitted_scaler f.
Proof.
  intros Hs.
  destruct (train_nsm_model_cases here env min_samples)
    as [(e & H) | [(rows & _ & _ & H) | (rows & f & r' & Hrows & _ & Hf & _ & H)]];
    rewrite H in Hs; cbn [snd] in Hs.
  - by apply elem_of_nil in Hs.
  - by apply elem_of_nil in Hs.
  - exists rows, f. split; [done|]. split; [done|].
    rewrite !elem_of_cons, elem_of_nil in Hs.
    destruct Hs as [Hs|[Hs|[Hs|[]]]]; congruence.
Qed.

(** * Further properties of the prediction service *)

(** ** The cache over a process lifetime *)

Lemma initial_cache_ordered : cache_ordered initial_cache.
Proof. by split. Qed.

Lemma load_model_ordered (here : string) (fs : FileSystem) (c : Cache) :
  cache_ordered c -> cache_ordered (load_model here fs c).2.
Proof.
  intros Hc. unfold load_model.
  destruct (_model c) as [m0|] eqn:Em; [exact Hc|].
  destruct (model_file fs) as [[m|e]|]; [|exact Hc..].
  destruct Hc as [H1 H2]. specialize (H1 Em). specialize (H2 H1).
  destruct (open_and_load (scaler_path here) (scaler_file fs)) as [s|e].
  - destruct (open_and_load (metadata_path here) (metadata_file fs)) as [md|e];
      by split.
  - by split.
Qed.

Lemma serve_cache (here : string) (fs : FileSystem) (k : call) (c : Cache) :
  (serve here fs k c).2 = (load_model here fs c).2.
Proof.
  destruct k as [fd|]; cbn [serve].
  - unfold predict_interval, predict_body.
    by destruct (load_model here fs c) as [[b|e] c'].
  - unfold get_model_status. by destruct (load_model here fs c) as [[b|e] c'].
Qed.

Lemma serve_all_ordered (here : string) (calls : list (FileSystem * call))
    (c : Cache) :
  cache_ordered c -> cache_ordered (serve_all here calls c).2.
Proof.
  revert c. induction calls as [|[fs k] calls IH]; intros c Hc; [done|].
  cbn [serve_all].
  destruct (serve here fs k c) as [answer c1] eqn:E1.
  specialize (IH c1).
  destruct (serve_all here calls c1) as [answers c2]. cbn [snd] in *.
  apply IH. replace c1 with (serve here fs k c).2 by by rewrite E1.
  rewrite serve_cache. by apply load_model_ordered.
Qed.

(** X1: whatever calls a process makes, and whatever the artifact directory
    holds at each of them, the globals are filled in order: [_scaler] is set
    only when [_model] is, and [_metadata] only when [_scaler] is. *)
Theorem cache_filled_in_order (here : string)
    (calls : list (FileSystem * call)) :
  cache_ordered (serve_all here calls initial_cache).2.
Proof. apply serve_all_ordered, initial_cache_ordered. Qed.

(** X2: once [_model] is set, neither entry point looks at the files again:
    the answer and the cache are the same whatever the directory holds, so
    a bundle written later is not picked up by the running process. *)
Theorem cached_bundle_outlives_files (here : string) (fs fs' : FileSystem)
    (k : call) (c : Cache) :
  is_Some (_model c) ->
  serve here fs' k c = serve here fs k c.
Proof.
  intros [m Hm]. destruct k as [fd|]; cbn [serve].
  - unfold predict_interval, predict_body.
    by rewrite !(load_model_cached _ _ _ m Hm).
  - unfold get_model_status. by rewrite !(load_model_cached _ _ _ m Hm).
Qed.

Lemma cached_bundle_outlives_files_witness :
  let c := (predict_interval "/srv/ml"
              (bundle_fs feature8_model identity_scaler sample_metadata)
              (request (num 10)) initial_cache).2 in
  is_Some (_model c)
  /\ serve "/srv/ml" no_bundle_fs (CallPredict (request (num 10))) c
     = serve "/srv/ml" (bundle_fs feature8_model identity_scaler sample_metadata)
         (CallPredict (request (num 10))) c.
Proof.
  cbv zeta.
  assert (H : is_Some (_model (predict_interval "/srv/ml"
              (bundle_fs feature8_model identity_scaler sample_metadata)
              (request (num 10)) initial_cache).2)) by (by eexists).
  split; [exact H|].
  exact (cached_bundle_outlives_files "/srv/ml" _ no_bundle_fs
           (CallPredict (request (num 10))) _ H).
Defined.

(** X3: when the model file is missing or does not load, [load_model]
    leaves the cache as it was, so the next call tries again and loads a
    bundle that has appeared in the meantime. *)
Theorem missing_model_is_retried (here : string) (fs : FileSystem) (c : Cache)
    (m : Model) (s : StandardScaler) (md : pyval) :
  _model c = None ->
  (forall m', model_file fs <> Some (Return m')) ->
  (exists e, load_model here fs c = (Raise e, c))
  /\ (load_model here (bundle_fs m s md) (load_model here fs c).2).1
     = Return (m, Some s, md).
Proof.
  intros Hc Hfs.
  assert (H : exists e, load_model here fs c = (Raise e, c)).
  { unfold load_model. rewrite Hc.
    destruct (model_file fs) as [[m'|e]|]; [by destruct (Hfs m')|eauto..]. }
  split; [done|]. destruct H as [e ->]. cbn [snd].
  unfold load_model. by rewrite Hc.
Qed.

Lemma missing_model_is_retried_witness :
  _model initial_cache = None
  /\ (forall m', model_file no_bundle_fs <> Some (Return m'))
  /\ (load_model "/srv/ml"
        (bundle_fs feature8_model identity_scaler sample_metadata)
        (load_model "/srv/ml" no_bundle_fs initial_cache).2).1
     = Return (feature8_model, Some identity_scaler, sample_metadata).
Proof.
  assert (H : forall m', model_file no_bundle_fs <> Some (Return m'))
    by discriminate.
  split; [reflexivity|]. split; [exact H|].
  exact (proj2 (missing_model_is_retried "/srv/ml" no_bundle_fs initial_cache
                  feature8_model identity_scaler sample_metadata eq_refl H)).
Defined.

(** ** The status probe *)

Lemma status_with_dict (metadata : gmap string pyval) :
  (model_version ← py_get (VDict metadata) "model_version" VNone;
   trained_at ← py_get (VDict metadata) "trained_at" VNone;
   training_samples ← py_get (VDict metadata) "training_samples" VNone;
   validation_mae ← py_get (VDict metadata) "val_mae" VNone;
   Return (<["success" := VBool true]>
          (<["model_available" := VBool true]>
          (<["model_version" := model_version]>
          (<["trained_at" := trained_at]>
          (<["training_samples" := training_samples]>
          (<["validation_mae" := validation_mae]> ∅)))))))
  = Return (status_of metadata).
Proof. reflexivity. Qed.

(** The two answers of [get_model_status]. *)
Lemma get_model_status_cases (here : string) (fs : FileSystem) (c : Cache) :
  (exists m sc d,
      (load_model here fs c).1 = Return (m, sc, VDict d)
      /\ (get_model_status here fs c).1 = status_of d)
  \/ ((forall m sc d, (load_model here fs c).1 <> Return (m, sc, VDict d))
      /\ (get_model_status here fs c).1 = status_unavailable).
Proof.
  unfold get_model_status.
  destruct (load_model here fs c) as [[[[m sc] md]|e] c']; cbn [fst].
  - destruct md as [| | | | |d];
      try (right; split; [intros ???; discriminate|reflexivity]).
    left. exists m, sc, d. split; [done|].
    cbn [mbind raises_bind]. by rewrite status_with_dict.
  - right. split; [intros ???; discriminate|reflexivity].
Qed.

(** Without a metadata dict the [try] block of [predict_interval] raises, at
    the latest when it reads the provenance. *)
Lemma predict_with_needs_metadata (m : Model) (sc : option StandardScaler)
    (md : pyval) (fd : pyval) :
  (forall d, md <> VDict d) ->
  exists e, predict_with (m, sc, md) fd = Raise e.
Proof.
  intros Hmd. unfold predict_with.
  destruct (feature_vector fd) as [features|e]; [|eauto]. cbn [mbind raises_bind].
  destruct (scaler_transform sc [features]) as [X|e]; [|eauto]. cbn [mbind raises_bind].
  destruct (predict m X) as [raw|e]; [|eauto]. cbn [mbind raises_bind].
  destruct (confidence_of _ fd) as [conf|e]; [|eauto]. cbn [mbind raises_bind].
  destruct md; try (eexists; reflexivity). by destruct (Hmd d).
Qed.

(** X5: the two handoff signals agree: whenever the status probe answers
    [model_available: False], a prediction against the same directory and
    cache answers with the fallback shape, for every request. *)
Theorem unavailable_status_means_fallback (here : string) (fs : FileSystem)
    (c : Cache) (fd : pyval) :
  (get_model_status here fs c).1 !! "model_available" = Some (VBool false) ->
  exists msg, (predict_interval here fs fd c).1 = failure_dict msg.
Proof.
  intros Hs.
  destruct (get_model_status_cases here fs c)
    as [(m & sc & d & _ & H) | [Hload _]].
  - rewrite H in Hs. discriminate.
  - unfold predict_interval, predict_body.
    destruct (load_model here fs c) as [[[[m sc] md]|e] c']; cbn [fst] in *.
    + destruct (predict_with_needs_metadata m sc md fd) as [e He].
      { intros d ->. by destruct (Hload m sc d). }
      cbn [mbind raises_bind]. rewrite He. apply handle_failure.
    + apply handle_failure.
Qed.

Lemma unavailable_status_means_fallback_witness :
  (get_model_status "/srv/ml" no_metadata_fs initial_cache).1
    !! "model_available" = Some (VBool false)
  /\ exists msg,
       (predict_interval "/srv/ml" no_metadata_fs (request (num 10))
          initial_cache).1 = failure_dict msg.
Proof.
  split; [reflexivity|].
  exact (unavailable_status_means_fallback "/srv/ml" no_metadata_fs
           initial_cache (request (num 10)) eq_refl).
Defined.

(** X6: in a process whose cache is filled in order, the status probe
    answers [model_available: True] only when the call leaves all three
    globals set: a model, a scaler and a metadata dict, whose provenance it
    reports. *)
Theorem available_status_means_loaded (here : string) (fs : FileSystem)
    (c : Cache) :
  cache_ordered c ->
  (get_model_status here fs c).1 !! "model_available" = Some (VBool true) ->
  exists m s d,
    (get_model_status here fs c).2
    = {| _model := Some m; _scaler := Some s; _metadata := VDict d |}
    /\ (get_model_status here fs c).1 = status_of d.
Proof.
  intros Hc Hs.
  destruct (get_model_status_cases here fs c)
    as [(m & sc & d & Hload & H) | [_ H]]; [|rewrite H in Hs; discriminate].
  pose proof (load_model_ordered here fs c Hc) as [Ho1 Ho2].
  pose proof (serve_cache here fs CallStatus c) as Hcache. cbn [serve] in Hcache.
  rewrite Hcache.
  assert (Hret : forall m sc md c1,
             load_model here fs c = (Return (m, sc, md), c1) ->
             c1 = {| _model := Some m; _scaler := sc; _metadata := md |}).
  { clear. intros m sc md c1. unfold load_model.
    destruct (_model c) as [m'|] eqn:Em.
    - intros [= <- <- <- <-]. by destruct c; cbn in *; subst.
    - destruct (model_file fs) as [[m'|e]|]; [|discriminate..].
      destruct (open_and_load _ (scaler_file fs)) as [s|e]; [|discriminate].
      destruct (open_and_load _ (metadata_file fs)) as [md'|e]; [|discriminate].
      by intros [= <- <- <- <-]. }
  destruct (load_model here fs c) as [r c1] eqn:E. cbn [fst snd] in *. subst r.
  rewrite (Hret _ _ _ _ eq_refl) in Ho1, Ho2 |- *. cbn in Ho1, Ho2.
  destruct sc as [s|]; [|by specialize (Ho2 eq_refl)].
  by exists m, s, d.
Qed.

Lemma available_status_means_loaded_witness :
  cache_ordered initial_cache
  /\ (get_model_status "/srv/ml"
        (bundle_fs feature8_model identity_scaler sample_metadata)
        initial_cache).1 !! "model_available" = Some (VBool true)
  /\ exists m s d,
       (get_model_status "/srv/ml"
          (bundle_fs feature8_model identity_scaler sample_metadata)
          initial_cache).2
       = {| _model := Some m; _scaler := Some s; _metadata := VDict d |}
       /\ (get_model_status "/srv/ml"
             (bundle_fs feature8_model identity_scaler sample_metadata)
             initial_cache).1 = status_of d.
Proof.
  split; [exact initial_cache_ordered|]. split; [reflexivity|].
  exact (available_status_means_loaded "/srv/ml"
           (bundle_fs feature8_model identity_scaler sample_metadata)
           initial_cache initial_cache_ordered eq_refl).
Defined.

(** ** Confidence *)

(** Python's [max(0.5, w)] is never NaN and never below 0.5. *)
Lemma py_max_half (w : pyfloat) :
  py_max (Fin (1#2)) w = PInf
  \/ exists q, py_max (Fin (1#2)) w = Fin q /\ 1#2 <= q.
Proof.
  unfold py_max. destruct w as [v| | |].
  - destruct (fgt (Fin v) (Fin (1#2))) eqn:E; right.
    + apply fgt_Fin in E. exists v. split; [done|]. by apply Qlt_le_weak.
    + exists (1#2). split; [done|]. apply Qle_refl.
  - by left.
  - right. exists (1#2). split; [done|]. apply Qle_refl.
  - right. exists (1#2). split; [done|]. apply Qle_refl.
Qed.

(** The confidence is the [max] of 0.5 and the uncertainty expression. *)
Lemma confidence_of_is_max (p : pyfloat) (fd : pyval) (conf : pyfloat) :
  confidence_of p fd = Return conf ->
  exists w, conf = py_max (Fin (1#2)) w.
Proof.
  unfold confidence_of. intros H. inv_bind H. injection H as <-. eauto.
Qed.

Section prediction_results.
Context (here : string).

(** X7: the confidence of a successful answer is never NaN and never below
    0.5, whatever the request and whatever the model returned: a NaN or
    negative uncertainty expression is replaced by 0.5, because the
    confidence is [max(0.5, .)] with 0.5 as first argument. *)
Theorem successful_confidence_at_least_half (fs : FileSystem) (fd : pyval)
    (c : Cache) :
  (predict_interval here fs fd c).1 !! "success" = Some (VBool true) ->
  exists conf,
    (predict_interval here fs fd c).1 !! "confidence" = Some (VNum conf)
    /\ conf <> NaN
    /\ fgt (Fin (1#2)) conf = false
    /\ (conf = PInf \/ exists q, conf = Fin q /\ 1#2 <= q).
Proof.
  unfold predict_interval, predict_body.
  destruct (load_model here fs c) as [[b|e] c1]; cbn [mbind raises_bind fst].
  - destruct (predict_with b fd) as [d|e] eqn:E.
    + apply predict_with_Return in E as (raw & conf & mv & ta & Hc & ->).
      intros _. exists conf. split; [done|].
      apply confidence_of_is_max in Hc as [w ->].
      destruct (py_max_half w) as [Hw|(q & Hw & Hq)]; rewrite Hw.
      * split; [done|]. split; [done|]. by left.
      * split; [done|]. split; [by apply fgt_Fin_false|]. right. by exists q.
    + destruct (handle_failure e) as [msg ->]. discriminate.
  - destruct (handle_failure e) as [msg ->]. discriminate.
Qed.

(** ** The request mapping *)

Lemma predict_with_ext (b : Model * option StandardScaler * pyval)
    (fd1 fd2 : pyval) :
  feature_vector fd1 = feature_vector fd2 ->
  py_get fd1 "current_interval" (num 1) = py_get fd2 "current_interval" (num 1) ->
  predict_with b fd1 = predict_with b fd2.
Proof.
  intros Hf Hc. destruct b as [[m sc] md]. unfold predict_with, confidence_of.
  by rewrite Hf, Hc.
Qed.

Lemma predict_interval_ext (fs : FileSystem) (c : Cache) (fd1 fd2 : pyval) :
  feature_vector fd1 = feature_vector fd2 ->
  py_get fd1 "current_interval" (num 1) = py_get fd2 "current_interval" (num 1) ->
  predict_interval here fs fd1 c = predict_interval here fs fd2 c.
Proof.
  intros Hf Hc. unfold predict_interval, predict_body.
  destruct (load_model here fs c) as [[b|e] c1]; [|done].
  cbn [mbind raises_bind]. by rewrite (predict_with_ext b fd1 fd2).
Qed.

(** X8: the answer depends on the 17 documented keys only: two requests
    that agree on them get the same answer, whatever else they carry. *)
Theorem other_keys_are_ignored (fs : FileSystem) (c : Cache)
    (d1 d2 : gmap string pyval) :
  same_features d1 d2 ->
  predict_interval here fs (VDict d1) c = predict_interval here fs (VDict d2) c.
Proof.
  intros H. unfold same_features, feature_keys in H.
  repeat (apply Forall_cons in H as [? H]). cbv beta in *.
  apply predict_interval_ext.
  - rewrite !feature_vector_dict.
    repeat match goal with
           | Hk : d1 !! _ = d2 !! _ |- _ => rewrite Hk; clear Hk
           end.
    reflexivity.
  - cbn [py_get]. congruence.
Qed.

(** X9: leaving a key out is the same as sending its documented default:
    the answer to a request without the key equals the answer to the
    request with the key set to that default. *)
Theorem missing_key_is_its_default (fs : FileSystem) (c : Cache)
    (d : gmap string pyval) (k : string) (v : pyval) :
  (k, v) ∈ feature_defaults ->
  d !! k = None ->
  predict_interval here fs (VDict (<[k := v]> d)) c
  = predict_interval here fs (VDict d) c.
Proof.
  intros Hk Hd. unfold feature_defaults in Hk.
  apply predict_interval_ext.
  - rewrite !feature_vector_dict.
    repeat (apply elem_of_cons in Hk as [[= -> ->]|Hk];
            [rewrite lookup_insert_eq, !lookup_insert_ne, Hd by done; done|]).
    by apply elem_of_nil in Hk.
  - cbn [py_get].
    repeat (apply elem_of_cons in Hk as [[= -> ->]|Hk];
            [first [rewrite lookup_insert_eq, Hd | rewrite lookup_insert_ne by done];
             done|]).
    by apply elem_of_nil in Hk.
Qed.

End prediction_results.

Lemma successful_confidence_at_least_half_witness :
  (predict_interval "/srv/ml"
     (bundle_fs feature8_model identity_scaler sample_metadata)
     (request (VNum NaN)) initial_cache).1 !! "success" = Some (VBool true)
  /\ exists conf,
       (predict_interval "/srv/ml"
          (bundle_fs feature8_model identity_scaler sample_metadata)
          (request (VNum NaN)) initial_cache).1 !! "confidence"
       = Some (VNum conf)
       /\ conf <> NaN
       /\ fgt (Fin (1#2)) conf = false
       /\ (conf = PInf \/ exists q, conf = Fin q /\ 1#2 <= q).
Proof.
  split; [reflexivity|].
  exact (successful_confidence_at_least_half "/srv/ml"
           (bundle_fs feature8_model identity_scaler sample_metadata)
           (request (VNum NaN)) initial_cache eq_refl).
Defined.

Lemma other_keys_are_ignored_witness :
  let d1 : gmap string pyval := <["current_interval" := num 10]> ∅ in
  let d2 : gmap string pyval :=
    <["user_id" := VStr "u-17"]> (<["current_interval" := num 10]> ∅) in
  same_features d1 d2
  /\ d1 <> d2
  /\ predict_interval "/srv/ml"
       (bundle_fs feature8_model identity_scaler sample_metadata) (VDict d1)
       initial_cache
     = predict_interval "/srv/ml"
         (bundle_fs feature8_model identity_scaler sample_metadata) (VDict d2)
         initial_cache.
Proof.
  cbv zeta.
  assert (H : same_features (<["current_interval" := num 10]> ∅)
                (<["user_id" := VStr "u-17"]>
                   (<["current_interval" := num 10]> ∅))).
  { unfold same_features, feature_keys. repeat constructor. }
  split; [exact H|]. split.
  - intros E. apply (f_equal (fun d : gmap string pyval => d !! "user_id")) in E.
    discriminate E.
  - exact (other_keys_are_ignored "/srv/ml" _ initial_cache _ _ H).
Defined.

Lemma missing_key_is_its_default_witness :
  ("current_interval", num 1) ∈ feature_defaults
  /\ (∅ : gmap string pyval) !! "current_interval" = None
  /\ predict_interval "/srv/ml"
       (bundle_fs feature8_model identity_scaler sample_metadata)
       (VDict (<["current_interval" := num 1]> ∅)) initial_cache
     = predict_interval "/srv/ml"
         (bundle_fs feature8_model identity_scaler sample_metadata)
         (VDict ∅) initial_cache.
Proof.
  assert (H : ("current_interval", num 1) ∈ feature_defaults).
  { unfold feature_defaults. repeat constructor. }
  split; [exact H|]. split; [reflexivity|].
  exact (missing_key_is_its_default "/srv/ml" _ initial_cache ∅ _ _ H eq_refl).
Defined.

(** * Further properties of the training pipeline *)

(** ** Feature extraction *)

Lemma mapR_length {A B} (f : A -> raises B) (l : list A) (l' : list B) :
  mapR f l = Return l' -> length l' = length l.
Proof. intros H. apply mapR_Forall2 in H. symmetry. by eapply Forall2_length. Qed.

(** One failing element makes the whole traversal raise. *)
Lemma mapR_Raise {A B} (f : A -> raises B) (l : list A) :
  Exists (fun a => exists e, f a = Raise e) l -> exists e, mapR f l = Raise e.
Proof.
  induction 1 as [a l [e He]|a l _ [e IH]]; cbn [mapR].
  - rewrite He. eauto.
  - destruct (f a) as [b|e']; [|eauto]. cbn [mbind raises_bind].
    rewrite IH. eauto.
Qed.

Lemma feature_vector_length (fd : pyval) (vec : list pyval) :
  feature_vector fd = Return vec -> length vec = 17%nat.
Proof.
  destruct fd; try discriminate. rewrite feature_vector_dict. intros H.
  apply bind_Return in H as (pace & _ & H). by injection H as <-.
Qed.

Lemma py_get_Return (o : pyval) (k : string) (dflt v : pyval) :
  py_get o k dflt = Return v ->
  exists d, o = VDict d /\ v = default dflt (d !! k).
Proof. destruct o; try discriminate. intros [= <-]. eauto. Qed.

Lemma py_get_not_dict (o : pyval) (k : string) (dflt : pyval) :
  (forall d, o <> VDict d) -> exists e, py_get o k dflt = Raise e.
Proof. intros H. destruct o; try (eexists; reflexivity). by destruct (H d). Qed.

(** X10: [extract_features] keeps one feature row and one target per input
    row, in input order; every feature row has 17 entries, row [i] is the
    vector built from the [feature_data] of input row [i], and target [i] is
    its [next_interval], or 1 when the outcome does not carry one. *)
Theorem extract_features_shape (training_data : list (pyval * pyval))
    (X : list (list pyval)) (y : list pyval) :
  extract_features training_data = Return (X, y) ->
  length X = length training_data
  /\ length y = length training_data
  /\ Forall (fun x => length x = 17%nat) X
  /\ forall i fd od,
       training_data !! i = Some (fd, od) ->
       exists x outcome,
         X !! i = Some x /\ feature_vector fd = Return x
         /\ od = VDict outcome
         /\ y !! i = Some (default (num 1) (outcome !! "next_interval")).
Proof.
  unfold extract_features. intros H.
  apply bind_Return in H as (pairs & Hp & H). injection H as <- <-.
  pose proof (mapR_length _ _ _ Hp) as Hlen.
  apply mapR_Forall2 in Hp.
  assert (Hrow : Forall2 (fun (row : pyval * pyval) (p : list pyval * pyval) =>
                   feature_vector row.1 = Return p.1
                   /\ exists outcome, row.2 = VDict outcome
                        /\ p.2 = default (num 1) (outcome !! "next_interval"))
                 training_data pairs).
  { eapply Forall2_impl; [exact Hp|]. intros [fd od] [x t] Hr. cbn [fst snd].
    apply bind_Return in Hr as (x' & Hx & Hr).
    apply bind_Return in Hr as (t' & Ht & Hr). injection Hr as <- <-.
    split; [done|]. by apply py_get_Return in Ht as (d & -> & ->); eauto. }
  rewrite !length_fmap. split; [done|]. split; [done|]. split.
  - apply Forall_fmap. apply Forall_forall. intros [x t] Hin.
    apply list_elem_of_lookup in Hin as [i Hi].
    destruct (Forall2_lookup_r _ _ _ _ _ Hrow Hi) as ([fd od] & _ & Hx & _).
    by apply feature_vector_length in Hx.
  - intros i fd od Hi.
    destruct (Forall2_lookup_l _ _ _ _ _ Hrow Hi)
      as ([x t] & Hpi & Hx & outcome & Hod & Ht).
    cbn [fst snd] in *. exists x, outcome.
    rewrite !list_lookup_fmap, Hpi. cbn. by subst.
Qed.

Lemma extract_features_shape_witness :
  exists X y,
    extract_features [(request (num 7), VDict ∅); (VDict ∅, request (num 3))]
    = Return (X, y)
    /\ length X = 2%nat /\ length y = 2%nat
    /\ y !! 0%nat = Some (num 1).
Proof.
  destruct (extract_features
              [(request (num 7), VDict ∅); (VDict ∅, request (num 3))])
    as [[X y]|e] eqn:E; [|vm_compute in E; discriminate E].
  exists X, y. split; [reflexivity|].
  destruct (extract_features_shape _ X y E) as (HX & Hy & _ & Hrows).
  split; [exact HX|]. split; [exact Hy|].
  destruct (Hrows 0%nat _ _ eq_refl) as (x & outcome & _ & _ & Ho & Ht).
  injection Ho as <-. exact Ht.
Defined.

(** ** Failing runs *)

Lemma extract_features_bad_row (training_data : list (pyval * pyval)) :
  Exists (fun row : pyval * pyval =>
            (forall d, row.1 <> VDict d) \/ (forall d, row.2 <> VDict d))
         training_data ->
  exists e, extract_features training_data = Raise e.
Proof.
  intros H. unfold extract_features.
  destruct (mapR_Raise
              (fun row : pyval * pyval =>
                 let '(feature_data, outcome_data) := row in
                 feature_vector ← feature_vector feature_data;
                 target_interval ← py_get outcome_data "next_interval" (num 1);
                 Return (feature_vector, target_interval)) training_data)
    as [e He].
  - eapply Exists_impl; [exact H|]. intros [fd od] [Hfd|Hod]; cbn [fst snd] in *.
    + destruct (feature_vector_not_dict fd Hfd) as [msg ->]. eauto.
    + destruct (feature_vector fd) as [x|e]; [|eauto].
      destruct (py_get_not_dict od "next_interval" (num 1) Hod) as [e ->]. eauto.
  - rewrite He. eauto.
Qed.

Section training_runs.
Context (here : string).

(** X11: one stored row whose [feature_data] or [outcome_data] is not a
    JSON object (a NULL column, say) aborts a run that passed the threshold:
    the exception leaves [train_nsm_model] and no file is written. *)
Theorem bad_row_aborts_training (env : TrainEnv) (min_samples : Z)
    (rows : list Row) :
  get_rows env = Return rows ->
  ~ (Z.of_nat (length rows) < min_samples)%Z ->
  Exists (fun row : Row =>
            (forall d, row.1.1 <> VDict d) \/ (forall d, row.1.2 <> VDict d))
         rows ->
  exists e, train_nsm_model here env min_samples = (Raise e, []).
Proof.
  intros Hrows Hmin Hbad. unfold train_nsm_model. rewrite Hrows.
  rewrite decide_False by done.
  assert (H : exists e, fit_pipeline env rows = Raise e).
  { unfold fit_pipeline.
    destruct (extract_features_bad_row
                ((fun row : Row => (row.1.1, row.1.2)) <$> rows)) as [e ->];
      [|eauto].
    apply Exists_fmap. eapply Exists_impl; [exact Hbad|]. by intros [[fd od] t]. }
  destruct H as [e ->]. eauto.
Qed.

End training_runs.

Lemma bad_row_aborts_training_witness :
  let rows : list Row :=
    five_rows ++ [(VNone, VDict ∅, VStr "2025-01-02T00:00:00")] in
  get_rows (example_env rows) = Return rows
  /\ ~ (Z.of_nat (length rows) < 5)%Z
  /\ exists e, train_nsm_model "/srv/ml" (example_env rows) 5 = (Raise e, []).
Proof.
  cbv zeta.
  assert (Hmin : ~ (Z.of_nat (length (five_rows
                      ++ [(VNone, VDict ∅, VStr "2025-01-02T00:00:00")])) < 5)%Z).
  { vm_compute. discriminate. }
  split; [reflexivity|]. split; [exact Hmin|].
  apply (bad_row_aborts_training "/srv/ml" (example_env _) 5 _ eq_refl Hmin).
  apply Exists_app. right. apply Exists_cons_hd. left. discriminate.
Defined.

(** ** The save step *)


Section save_step.
Context (here : string).


End save_step.

(** When writing the scaler fails, the run raises and the directory is left
    with the new model beside the previous scaler and metadata. *)
Lemma failed_scaler_write_leaves_new_model :
  exists m e,
    train_nsm_model_on scaler_write_fails "/srv/ml" (example_env five_rows) 5
    = (Raise e, [WriteModel m]).
Proof. eexists _, _. reflexivity. Qed.

(** ** The train/validation split *)

Lemma n_test_of_le (n : nat) : (n_test_of n <= n)%nat.
Proof.
  unfold n_test_of. destruct n as [|n]; [done|].
  apply Nat.Div0.div_le_upper_bound. lia.
Qed.

Lemma n_test_of_small (n : nat) : (n - n_test_of n = 0)%nat <-> (n <= 1)%nat.
Proof.
  unfold n_test_of. split.
  - intros H. destruct (decide (n <= 1)%nat) as [|Hn]; [done|].
    assert ((n + 4) / 5 < n)%nat; [|lia].
    apply Nat.Div0.div_lt_upper_bound. lia.
  - intros H. assert (n = 0 \/ n = 1)%nat as [->| ->] by lia; reflexivity.
Qed.

Section selecting_rows.
Context {A : Type}.
Implicit Types (X : list A) (idx : list nat).

Lemma take_rows_Forall2 X idx (l : list A) :
  take_rows X idx = Return l -> Forall2 (fun i r => X !! i = Some r) idx l.
Proof.
  intros H. apply mapR_Forall2 in H. eapply Forall2_impl; [exact H|].
  intros i r Hi. cbv beta in Hi. by destruct (X !! i); simplify_eq.
Qed.

Lemma take_rows_length X idx (l : list A) :
  take_rows X idx = Return l -> length l = length idx.
Proof. apply mapR_length. Qed.

(** Reading the rows at [0, 1, ..., n-1] gives the list back. *)
Lemma lookups_of_seq X (l : list A) :
  Forall2 (fun i r => X !! i = Some r) (seq 0 (length X)) l -> l = X.
Proof.
  intros H. apply list_eq. intros i.
  destruct (decide (i < length X)%nat) as [Hi|Hi].
  - destruct (Forall2_lookup_l _ _ _ i i H) as (r & -> & Hr); [|done].
    by apply lookup_seq_lt.
  - rewrite (lookup_ge_None_2 X) by lia. apply lookup_ge_None_2.
    apply Forall2_length in H. rewrite length_seq in H. lia.
Qed.

Lemma lookups_of_permutation X idx (l : list A) :
  idx ≡ₚ seq 0 (length X) ->
  Forall2 (fun i r => X !! i = Some r) idx l ->
  l ≡ₚ X.
Proof.
  intros Hp H.
  destruct (Permutation_Forall2 Hp H) as (l' & Hl & H').
  by rewrite Hl, (lookups_of_seq X l').
Qed.

End selecting_rows.

(** Rows and targets selected by the same indices stay paired. *)
Lemma lookups_zip {A B} (X : list A) (y : list B) (idx : list nat)
    (a : list A) (b : list B) :
  Forall2 (fun i r => X !! i = Some r) idx a ->
  Forall2 (fun i t => y !! i = Some t) idx b ->
  Forall2 (fun i rt => zip X y !! i = Some rt) idx (zip a b).
Proof.
  intros Ha. revert b. induction Ha as [|i r idx a Hr Ha IH]; intros b Hb.
  - constructor.
  - inversion Hb as [|? t ? b' Ht Hb']; subst. cbn [zip zip_with].
    constructor; [|by apply IH]. by apply lookup_zip_Some.
Qed.

(** X12: under a shuffle that returns every index once, the split is a
    partition of the data: the validation pairs and the training pairs
    together are the (feature row, target) pairs of the input, each once and
    each row still with its own target; the validation split has
    [ceil(n / 5)] rows and the training split the rest. *)
Theorem split_partitions_rows {A B} (perm : nat -> list nat)
    (X : list A) (y : list B) (X_train X_val : list A)
    (y_train y_val : list B) :
  shuffle_permutes perm ->
  length y = length X ->
  train_test_split perm X y = Return (X_train, X_val, y_train, y_val) ->
  zip X_val y_val ++ zip X_train y_train ≡ₚ zip X y
  /\ length X_val = n_test_of (length X)
  /\ length X_train = (length X - n_test_of (length X))%nat
  /\ length y_val = length X_val
  /\ length y_train = length X_train.
Proof.
  intros Hperm Hy H. unfold train_test_split in H.
  case_decide as Hn; [discriminate|].
  apply bind_Return in H as (a1 & H1 & H).
  apply bind_Return in H as (a2 & H2 & H).
  apply bind_Return in H as (b1 & H3 & H).
  apply bind_Return in H as (b2 & H4 & H).
  injection H as <- <- <- <-.
  set (n := length X) in *. set (k := n_test_of n) in *.
  pose proof (n_test_of_le n) as Hk. fold k in Hk.
  assert (Hlen : length (perm n) = n).
  { rewrite (Hperm n). apply length_seq. }
  assert (Htrain : train_indices perm n = drop k (perm n)).
  { unfold train_indices. fold k. apply take_ge. rewrite length_drop. lia. }
  assert (Hl1 : length a1 = (n - k)%nat).
  { rewrite (take_rows_length _ _ _ H1), Htrain, length_drop. lia. }
  assert (Hl2 : length a2 = k).
  { rewrite (take_rows_length _ _ _ H2). unfold test_indices. fold k.
    apply length_take_le. lia. }
  assert (Hl3 : length b1 = (n - k)%nat).
  { rewrite (take_rows_length _ _ _ H3), Htrain, length_drop. lia. }
  assert (Hl4 : length b2 = k).
  { rewrite (take_rows_length _ _ _ H4). unfold test_indices. fold k.
    apply length_take_le. lia. }
  split; [|repeat split; lia].
  apply take_rows_Forall2 in H1, H2, H3, H4.
  rewrite Htrain in H1, H3. unfold test_indices in H2, H4. fold k in H2, H4.
  pose proof (lookups_zip _ _ _ _ _ H2 H4) as Hval.
  pose proof (lookups_zip _ _ _ _ _ H1 H3) as Htr.
  pose proof (Forall2_app Hval Htr) as Hall.
  rewrite take_drop in Hall.
  eapply lookups_of_permutation; [|exact Hall].
  rewrite length_zip, Hy, Nat.min_id. apply Hperm.
Qed.

Lemma split_partitions_rows_witness :
  shuffle_permutes (fun n => seq 0 n)
  /\ exists X_train X_val y_train y_val,
       train_test_split (fun n => seq 0 n) [10; 20; 30; 40; 50]%nat
         ["a"; "b"; "c"; "d"; "e"]
       = Return (X_train, X_val, y_train, y_val)
       /\ zip X_val y_val ++ zip X_train y_train
          ≡ₚ zip [10; 20; 30; 40; 50]%nat ["a"; "b"; "c"; "d"; "e"]
       /\ length X_val = 1%nat /\ length X_train = 4%nat.
Proof.
  assert (Hp : shuffle_permutes (fun n => seq 0 n)) by (by intros n).
  split; [exact Hp|].
  destruct (train_test_split (fun n => seq 0 n) [10; 20; 30; 40; 50]%nat
              ["a"; "b"; "c"; "d"; "e"])
    as [[[[X_train X_val] y_train] y_val]|e] eqn:E;
    [|vm_compute in E; discriminate E].
  exists X_train, X_val, y_train, y_val. split; [reflexivity|].
  destruct (split_partitions_rows (fun n => seq 0 n)
              [10; 20; 30; 40; 50]%nat ["a"; "b"; "c"; "d"; "e"]
              X_train X_val y_train y_val Hp eq_refl E)
    as (H1 & H2 & H3 & _).
  split; [exact H1|]. split; [exact H2|exact H3].
Defined.

(** *** The training split decides the scaler *)

Lemma fmap_Some_Return_inj {A} (l k : list A) :
  (fun x => Some (Return x)) <$> l = (fun x => Some (Return x)) <$> k -> l = k.
Proof.
  revert k. induction l as [|x l IH]; intros [|y k]; try done.
  cbn. intros [= -> H]. by rewrite (IH k).
Qed.

Lemma lookups_are_vectors (rows : list Row) (X : list (list pyval))
    (idx : list nat) (X_train : list (list pyval)) :
  Forall2 (fun (row : Row) x => feature_vector row.1.1 = Return x) rows X ->
  Forall2 (fun i r => X !! i = Some r) idx X_train ->
  (fun i => (fun row : Row => feature_vector row.1.1) <$> rows !! i) <$> idx
  = (fun x => Some (Return x)) <$> X_train.
Proof.
  intros HX Ht. induction Ht as [|i x idx X_train Hi _ IH]; [done|].
  cbn [fmap list_fmap]. f_equal; [|exact IH].
  destruct (Forall2_lookup_r _ _ _ _ _ HX Hi) as (row & -> & Hrow).
  cbn. by rewrite Hrow.
Qed.

(** The rows a run hands to the fit are its training split. *)
Lemma fit_pipeline_training_vectors (env : TrainEnv) (rows : list Row)
    (f : Fitted) :
  fit_pipeline env rows = Return f ->
  exists X_train,
    training_vectors (permutation env) rows
    = (fun x => Some (Return x)) <$> X_train
    /\ scaler_fit env X_train = Return (fitted_scaler f).
Proof.
  intros H. apply fit_pipeline_scaler in H as (X & X_train & HX & Ht & Hfit).
  exists X_train. split; [|done].
  apply take_rows_Forall2 in Ht. unfold training_vectors.
  rewrite (Forall2_length _ _ _ HX). by apply (lookups_are_vectors rows X).
Qed.

(** C8: the scaler a run writes is the fit of its training split, the
    feature vectors of the rows at the training indices of the shuffle, and
    of nothing else: two runs with the same shuffle and the same fit routine
    over two datasets whose training splits are equal write the same scaler,
    whatever their validation rows, their targets and their sizes. *)
Theorem scaler_fitted_on_training_split_only (here : string)
    (env1 env2 : TrainEnv) (min_samples : Z) (rows1 rows2 : list Row)
    (s1 s2 : StandardScaler) :
  permutation env1 = permutation env2 ->
  scaler_fit env1 = scaler_fit env2 ->
  get_rows env1 = Return rows1 ->
  get_rows env2 = Return rows2 ->
  training_vectors (permutation env1) rows1
  = training_vectors (permutation env1) rows2 ->
  WriteScaler s1 ∈ (train_nsm_model here env1 min_samples).2 ->
  WriteScaler s2 ∈ (train_nsm_model here env2 min_samples).2 ->
  exists X_train,
    training_vectors (permutation env1) rows1
    = (fun x => Some (Return x)) <$> X_train
    /\ scaler_fit env1 X_train = Return s1
    /\ scaler_fit env2 X_train = Return s2
    /\ s1 = s2.
Proof.
  intros Hperm Hfit Hr1 Hr2 Hsame Hs1 Hs2.
  apply write_scaler_of_run in Hs1 as (rows1' & f1 & Hr1' & Hf1 & ->).
  apply write_scaler_of_run in Hs2 as (rows2' & f2 & Hr2' & Hf2 & ->).
  assert (rows1' = rows1) as -> by congruence.
  assert (rows2' = rows2) as -> by congruence.
  apply fit_pipeline_training_vectors in Hf1 as (T1 & HT1 & HS1).
  apply fit_pipeline_training_vectors in Hf2 as (T2 & HT2 & HS2).
  rewrite <- Hperm, <- Hsame, HT1 in HT2.
  apply fmap_Some_Return_inj in HT2 as <-.
  exists T1. split; [done|]. split; [done|]. split; [done|].
  rewrite Hfit, HS2 in HS1. by injection HS1.
Qed.

Lemma scaler_fitted_on_training_split_only_witness :
  length five_rows <> length six_rows
  /\ training_vectors (permutation (example_env five_rows)) five_rows
     = training_vectors (permutation (example_env five_rows)) six_rows
  /\ exists s X_train,
       WriteScaler s ∈ (train_nsm_model "/srv/ml" (example_env five_rows) 5).2
       /\ WriteScaler s ∈ (train_nsm_model "/srv/ml" (example_env six_rows) 5).2
       /\ length X_train = 4%nat
       /\ first_row_fit X_train = Return s.
Proof.
  split; [discriminate|].
  assert (Hsame : training_vectors (permutation (example_env five_rows)) five_rows
                  = training_vectors (permutation (example_env five_rows)) six_rows)
    by reflexivity.
  split; [exact Hsame|].
  assert (H1 : exists s1, WriteScaler s1
                 ∈ (train_nsm_model "/srv/ml" (example_env five_rows) 5).2).
  { eexists. vm_compute. right. left. }
  assert (H2 : exists s2, WriteScaler s2
                 ∈ (train_nsm_model "/srv/ml" (example_env six_rows) 5).2).
  { eexists. vm_compute. right. left. }
  destruct H1 as [s1 H1], H2 as [s2 H2].
  destruct (scaler_fitted_on_training_split_only "/srv/ml"
              (example_env five_rows) (example_env six_rows) 5
              five_rows six_rows s1 s2 eq_refl eq_refl eq_refl eq_refl
              Hsame H1 H2) as (X_train & HT & Hfit1 & _ & Heq).
  exists s1, X_train. split; [exact H1|]. split; [by rewrite Heq|].
  split; [|exact Hfit1].
  apply (f_equal length) in HT. rewrite length_fmap in HT. by rewrite <- HT.
Defined.

(** ** Sizes recorded by a run *)

Lemma shuffle_permutes_sized (perm : nat -> list nat) :
  shuffle_permutes perm -> shuffle_sized perm.
Proof. intros H n. rewrite (H n). apply length_seq. Qed.

Lemma scale_row_length (row mean scale : list pyfloat) :
  length row = length mean -> length scale = length mean ->
  length (scale_row row mean scale) = length row.
Proof.
  revert mean scale. induction row as [|x row IH]; intros [|m mean] [|s scale];
    cbn; try done.
  intros [= H1] [= H2]. by rewrite (IH mean scale).
Qed.

(** [transform] keeps the shape of the batch. *)
Lemma transform_shape (s : StandardScaler) (X : list (list pyval))
    (out : list (list pyfloat)) :
  transform s X = Return out ->
  Forall2 (fun x r => length r = length x) X out.
Proof.
  unfold transform. intros H.
  apply bind_Return in H as (Xf & HXf & H).
  apply mapR_Forall2 in HXf, H.
  apply Forall2_same_length_lookup_2.
  - by rewrite (Forall2_length _ _ _ HXf), (Forall2_length _ _ _ H).
  - intros i x r Hx Hr.
    destruct (Forall2_lookup_l _ _ _ _ _ HXf Hx) as (xf & Hxf & Hv).
    destruct (Forall2_lookup_l _ _ _ _ _ H Hxf) as (r' & Hr' & Hs).
    assert (r' = r) as -> by congruence.
    apply mapR_length in Hv. cbv beta in Hs.
    case_decide as Hw; [|discriminate]. injection Hs as <-.
    destruct Hw as [Hw1 Hw2]. rewrite scale_row_length by done. done.
Qed.

Lemma train_test_split_lengths {A B} (perm : nat -> list nat)
    (X : list A) (y : list B) (X_train X_val : list A) (y_train y_val : list B) :
  shuffle_sized perm ->
  train_test_split perm X y = Return (X_train, X_val, y_train, y_val) ->
  length X_val = n_test_of (length X)
  /\ length X_train = (length X - n_test_of (length X))%nat
  /\ (0 < length X_train)%nat
  /\ Forall (fun x => x ∈ X) X_train.
Proof.
  intros Hperm H. unfold train_test_split in H.
  case_decide as Hn; [discriminate|].
  apply bind_Return in H as (a1 & H1 & H).
  apply bind_Return in H as (a2 & H2 & H).
  inv_bind H. injection H as <- <- <- <-.
  pose proof (n_test_of_le (length X)) as Hk.
  assert (Hl1 : length a1 = (length X - n_test_of (length X))%nat).
  { rewrite (take_rows_length _ _ _ H1). unfold train_indices.
    rewrite length_take_le; [done|]. rewrite length_drop, Hperm. lia. }
  split; [|split; [done|split; [lia|]]].
  - rewrite (take_rows_length _ _ _ H2). unfold test_indices.
    apply length_take_le. rewrite Hperm. lia.
  - apply take_rows_Forall2 in H1. apply Forall_forall. intros x Hx.
    apply list_elem_of_lookup in Hx as [j Hj].
    destruct (Forall2_lookup_r _ _ _ _ _ H1 Hj) as (i & _ & Hi).
    by eapply list_elem_of_lookup_2.
Qed.

Lemma fit_pipeline_sizes (env : TrainEnv) (rows : list Row) (f : Fitted) :
  shuffle_sized (permutation env) ->
  fit_pipeline env rows = Return f ->
  validation_samples f = n_test_of (length rows)
  /\ training_samples f = (length rows - n_test_of (length rows))%nat
  /\ feature_count f = 17%nat.
Proof.
  intros Hperm H. unfold fit_pipeline in H.
  apply bind_Return in H as ([X y] & HX & H).
  apply bind_Return in H as ([[[X_train X_val] y_train] y_val] & Hsplit & H).
  apply bind_Return in H as (scaler & _ & H).
  apply bind_Return in H as (X_train_scaled & Htr & H).
  apply bind_Return in H as (X_val_scaled & _ & H).
  apply bind_Return in H as ([[model vl] vm] & _ & H).
  injection H as <-. cbn [validation_samples training_samples feature_count].
  apply extract_features_rows in HX.
  assert (HlenX : length X = length rows).
  { rewrite <- (Forall2_length _ _ _ HX). apply length_fmap. }
  destruct (train_test_split_lengths _ _ _ _ _ _ _ Hperm Hsplit)
    as (Hv & Ht & Hpos & Hin).
  rewrite HlenX in Hv, Ht. split; [done|]. split; [done|].
  apply transform_shape in Htr.
  destruct X_train as [|x X_train]; [cbn in Hpos; lia|].
  inversion Htr as [|? r ? out Hr _]; subst. cbn [shape1]. rewrite Hr.
  apply Forall_cons in Hin as [Hx _].
  apply list_elem_of_lookup in Hx as [i Hi].
  destruct (Forall2_lookup_r _ _ _ _ _ HX Hi) as (row & _ & Hrow).
  by apply feature_vector_length in Hrow.
Qed.

Section training_sizes.
Context (here : string).

(** X13: with a shuffle that returns [n] indices for [n] rows, a successful
    run over [n] rows reports [ceil(n / 5)] validation samples and the
    remaining [n - ceil(n / 5)] training samples, and the metadata it writes
    carries the same two counts and a feature count of 17. *)
Theorem run_reports_split_sizes (env : TrainEnv) (min_samples : Z)
    (rows : list Row) (r : gmap string pyval) :
  shuffle_sized (permutation env) ->
  get_rows env = Return rows ->
  (train_nsm_model here env min_samples).1 = Return r ->
  r !! "success" = Some (VBool true) ->
  r !! "validation_samples" = Some (of_nat (n_test_of (length rows)))
  /\ r !! "training_samples"
     = Some (of_nat (length rows - n_test_of (length rows)))
  /\ exists md,
       last (train_nsm_model here env min_samples).2
       = Some (WriteMetadata (VDict md))
       /\ md !! "validation_samples" = r !! "validation_samples"
       /\ md !! "training_samples" = r !! "training_samples"
       /\ md !! "feature_count" = Some (of_nat 17).
Proof.
  intros Hperm Hrows Hr Hs.
  destruct (train_nsm_model_cases here env min_samples)
    as [(e & H) | [(rows' & _ & _ & H) | (rows' & f & r' & Hrows' & _ & Hf & _ & H)]];
    rewrite H in Hr |- *; cbn [fst snd] in *.
  - discriminate.
  - injection Hr as <-. discriminate.
  - assert (rows' = rows) as -> by congruence.
    unfold train_nsm_model in H. rewrite Hrows in H.
    case_decide; [discriminate|]. rewrite Hf in H. injection H as <-.
    injection Hr as <-.
    destruct (fit_pipeline_sizes env rows f Hperm Hf) as (Hv & Ht & Hc).
    unfold training_summary.
    split; [by rewrite <- Hv|]. split; [by rewrite <- Ht|].
    exists (metadata_of env f). split; [done|].
    unfold metadata_of. by rewrite Hc.
Qed.

(** X15: a run that passes the threshold with at most one row cannot be
    split: it raises and writes nothing. *)
Theorem single_row_cannot_be_split (env : TrainEnv) (min_samples : Z)
    (rows : list Row) :
  get_rows env = Return rows ->
  ~ (Z.of_nat (length rows) < min_samples)%Z ->
  (length rows <= 1)%nat ->
  exists e, train_nsm_model here env min_samples = (Raise e, []).
Proof.
  intros Hrows Hmin Hn. unfold train_nsm_model. rewrite Hrows.
  rewrite decide_False by done.
  assert (H : exists e, fit_pipeline env rows = Raise e).
  { unfold fit_pipeline.
    destruct (extract_features _) as [[X y]|e] eqn:HX; [|eauto].
    cbn [mbind raises_bind].
    apply extract_features_rows in HX.
    assert (HlenX : length X = length rows).
    { rewrite <- (Forall2_length _ _ _ HX). apply length_fmap. }
    unfold train_test_split. rewrite decide_True; [eauto|].
    apply n_test_of_small. lia. }
  destruct H as [e ->]. eauto.
Qed.

End training_sizes.

Lemma run_reports_split_sizes_witness :
  shuffle_sized (permutation (example_env five_rows))
  /\ get_rows (example_env five_rows) = Return five_rows
  /\ exists r,
       (train_nsm_model "/srv/ml" (example_env five_rows) 5).1 = Return r
       /\ r !! "success" = Some (VBool true)
       /\ r !! "validation_samples" = Some (num 1)
       /\ r !! "training_samples" = Some (num 4).
Proof.
  assert (Hp : shuffle_sized (permutation (example_env five_rows))).
  { intros n. apply length_seq. }
  split; [exact Hp|]. split; [reflexivity|].
  eexists. split; [reflexivity|]. split; [reflexivity|].
  destruct (run_reports_split_sizes "/srv/ml" (example_env five_rows) 5
              five_rows _ Hp eq_refl eq_refl eq_refl) as (Hv & Ht & _).
  split; [exact Hv|exact Ht].
Defined.

Lemma single_row_cannot_be_split_witness :
  get_rows (example_env [example_row 1 2]) = Return [example_row 1 2]
  /\ ~ (Z.of_nat (length [example_row 1 2]) < 1)%Z
  /\ (length [example_row 1 2] <= 1)%nat
  /\ exists e,
       train_nsm_model "/srv/ml" (example_env [example_row 1 2]) 1
       = (Raise e, []).
Proof.
  assert (Hmin : ~ (Z.of_nat (length [example_row 1 2]) < 1)%Z)
    by (vm_compute; discriminate).
  split; [reflexivity|]. split; [exact Hmin|]. split; [apply le_n|].
  exact (single_row_cannot_be_split "/srv/ml" (example_env [example_row 1 2]) 1
           [example_row 1 2] eq_refl Hmin (le_n 1)).
Defined.

(** * From a training run to the service *)

(** A fresh process in front of a whole bundle loads all three files. *)
Lemma load_model_fresh (here : string) (m : Model) (s : StandardScaler)
    (md : pyval) :
  load_model here (bundle_fs m s md) initial_cache
  = (Return (m, Some s, md),
     {| _model := Some m; _scaler := Some s; _metadata := md |}).
Proof. reflexivity. Qed.

(** A success dict carries the provenance of the metadata dict. *)
Lemma predict_with_provenance (m : Model) (sc : option StandardScaler)
    (md : gmap string pyval) (fd : pyval) (r : gmap string pyval) :
  predict_with (m, sc, VDict md) fd = Return r ->
  r !! "model_version" = Some (default VNone (md !! "model_version"))
  /\ r !! "trained_at" = Some (default VNone (md !! "trained_at"))
  /\ r !! "method" = Some (VStr "neural_network").
Proof.
  unfold predict_with. intros H.
  apply bind_Return in H as (features & _ & H).
  apply bind_Return in H as (X_scaled & _ & H).
  apply bind_Return in H as (raw & _ & H).
  apply bind_Return in H as (conf & _ & H).
  cbn [py_get mbind raises_bind] in H. by injection H as <-.
Qed.

Section train_then_serve.
Context (here : string).

(** X4: what a successful run writes is what the service reads.  A process
    started after the run loads the run's model, scaler and metadata; its
    status probe answers available with version "1.0", the run's timestamp,
    training-sample count and validation MAE (written as [val_mae], read as
    [validation_mae]); and every successful prediction carries that version
    and timestamp. *)
Theorem trained_bundle_is_served (env : TrainEnv) (min_samples : Z)
    (fs : FileSystem) (r : gmap string pyval) :
  (train_nsm_model here env min_samples).1 = Return r ->
  r !! "success" = Some (VBool true) ->
  let fs' := (run_training here env min_samples fs).2 in
  let status := (get_model_status here fs' initial_cache).1 in
  (exists rows f,
      get_rows env = Return rows /\ fit_pipeline env rows = Return f
      /\ (load_model here fs' initial_cache).1
         = Return (fitted_model f, Some (fitted_scaler f),
                   VDict (metadata_of env f)))
  /\ status !! "model_available" = Some (VBool true)
  /\ status !! "model_version" = Some (VStr "1.0")
  /\ status !! "trained_at" = Some (VStr (now_isoformat env))
  /\ status !! "training_samples" = r !! "training_samples"
  /\ status !! "validation_mae" = r !! "val_mae"
  /\ forall fd,
       let answer := (predict_interval here fs' fd initial_cache).1 in
       answer !! "success" = Some (VBool true) ->
       answer !! "model_version" = Some (VStr "1.0")
       /\ answer !! "trained_at" = Some (VStr (now_isoformat env)).
Proof.
  intros Hr Hs. cbv zeta. unfold run_training.
  destruct (train_nsm_model_cases here env min_samples)
    as [(e & H) | [(rows & _ & _ & H) | (rows & f & r' & Hrows & _ & Hf & _ & H)]].
  - rewrite H in Hr. discriminate.
  - rewrite H in Hr. injection Hr as <-. discriminate.
  - pose proof H as H'. unfold train_nsm_model in H'. rewrite Hrows in H'.
    case_decide; [discriminate|]. rewrite Hf in H'. injection H' as <-.
    rewrite H in Hr. injection Hr as <-.
    rewrite H. cbn [snd foldl apply_write]. cbn [model_file scaler_file metadata_file].
    change (mkFS (Some (Return (fitted_model f)))
                 (Some (Return (fitted_scaler f)))
                 (Some (Return (VDict (metadata_of env f)))))
      with (bundle_fs (fitted_model f) (fitted_scaler f)
              (VDict (metadata_of env f))).
    split; [exists rows, f; by rewrite load_model_fresh|].
    unfold get_model_status, predict_interval, predict_body.
    rewrite load_model_fresh. cbn [mbind raises_bind fst].
    rewrite status_with_dict.
    repeat (split; [reflexivity|]).
    intros fd. destruct (predict_with _ fd) as [d|e] eqn:E.
    + intros _. by apply predict_with_provenance in E as (-> & -> & _).
    + destruct (handle_failure e) as [msg ->]. discriminate.
Qed.

End train_then_serve.

Lemma trained_bundle_is_served_witness :
  exists r,
    (train_nsm_model "/srv/ml" (example_env five_rows) 5).1 = Return r
    /\ r !! "success" = Some (VBool true)
    /\ (get_model_status "/srv/ml"
          (run_training "/srv/ml" (example_env five_rows) 5 no_bundle_fs).2
          initial_cache).1 !! "validation_mae" = Some (VNum (Fin 2)).
Proof.
  eexists. split; [reflexivity|]. split; [reflexivity|].
  destruct (trained_bundle_is_served "/srv/ml" (example_env five_rows) 5
              no_bundle_fs _ eq_refl eq_refl) as (_ & _ & _ & _ & _ & H & _).
  rewrite H. reflexivity.
Defined.

(** * predict.py as a script *)

Lemma predict_interval_has_success (here : string) (fs : FileSystem)
    (fd : pyval) (c : Cache) :
  is_Some ((predict_interval here fs fd c).1 !! "success").
Proof.
  unfold predict_interval, predict_body.
  destruct (load_model here fs c) as [[b|e] c1]; cbn [mbind raises_bind fst].
  - destruct (predict_with b fd) as [d|e] eqn:E.
    + by apply predict_with_Return in E as (raw & conf & mv & ta & _ & ->).
    + by destruct (handle_failure e) as [msg ->].
  - by destruct (handle_failure e) as [msg ->].
Qed.

Lemma get_model_status_has_success (here : string) (fs : FileSystem) (c : Cache) :
  is_Some ((get_model_status here fs c).1 !! "success").
Proof.
  destruct (get_model_status_cases here fs c)
    as [(m & sc & d & _ & ->) | [_ ->]]; done.
Qed.

(** X16: as a script, predict.py ends with an exception in one case only:
    the command is [predict] and standard input does not parse as JSON; the
    parse error is then the exception.  In every other case it prints one
    dict, which has a [success] key exactly when the command was [status] or
    [predict]; a missing or unknown command prints a dict with [error]
    alone. *)
Theorem predict_main_outcomes (here : string) (argv : list string)
    (stdin : raises pyval) (fs : FileSystem) :
  (forall e, predict_main here argv stdin fs = Raise e
             <-> argv !! 1%nat = Some "predict" /\ stdin = Raise e)
  /\ (forall d, predict_main here argv stdin fs = Return d ->
        (is_Some (d !! "success")
         <-> argv !! 1%nat = Some "status" \/ argv !! 1%nat = Some "predict")
        /\ (d !! "success" = None -> dom d = {["error"]})).
Proof.
  unfold predict_main.
  destruct argv as [|script [|command argv]]; cbn [lookup list_lookup].
  - split.
    + intros e. split; [discriminate|]. by intros [[=] _].
    + intros d [= <-]. split; [|intros _; set_solver].
      split; [by intros [? [=]]|]. by intros [[=]|[=]].
  - split.
    + intros e. split; [discriminate|]. by intros [[=] _].
    + intros d [= <-]. split; [|intros _; set_solver].
      split; [by intros [? [=]]|]. by intros [[=]|[=]].
  - case_decide as Hs; [|case_decide as Hp].
    + subst command. split.
      * intros e. split; [discriminate|]. by intros [[=] _].
      * intros d [= <-]. split; [split; [by left|]|].
        -- intros _. apply get_model_status_has_success.
        -- intros Hn. destruct (get_model_status_has_success here fs initial_cache)
             as [x Hx]. congruence.
    + subst command. split.
      * intros e. destruct stdin as [fd|e']; cbn [mbind raises_bind].
        -- split; [discriminate|]. by intros [_ [=]].
        -- split; [by intros [= ->]|]. by intros [_ [= ->]].
      * intros d Hd. destruct stdin as [fd|e']; [|discriminate].
        cbn [mbind raises_bind] in Hd. injection Hd as <-.
        split; [split; [by right|]|].
        -- intros _. apply predict_interval_has_success.
        -- intros Hn. destruct (predict_interval_has_success here fs fd initial_cache)
             as [x Hx]. congruence.
    + split.
      * intros e. split; [discriminate|]. intros [[= ->] _]. done.
      * intros d [= <-]. split; [|intros _; set_solver].
        split; [by intros [? [=]]|]. intros [[= ->]|[= ->]]; done.
Qed.

(** * Bounds on a successful answer *)

(** A success dict carries the clip of what [model.predict] returned for
    the scaled feature row. *)
Lemma predict_with_raw (m : Model) (sc : option StandardScaler) (md : pyval)
    (fd : pyval) (r : gmap string pyval) :
  predict_with (m, sc, md) fd = Return r ->
  exists features X_scaled raw,
    feature_vector fd = Return features
    /\ scaler_transform sc [features] = Return X_scaled
    /\ predict m X_scaled = Return raw
    /\ r !! "predicted_interval" = Some (VNum (np_clip raw (Fin 1) (Fin 180))).
Proof.
  unfold predict_with. intros H.
  apply bind_Return in H as (features & Hf & H).
  apply bind_Return in H as (X_scaled & HX & H).
  apply bind_Return in H as (raw & Hraw & H).
  apply bind_Return in H as (conf & _ & H).
  apply bind_Return in H as (mv & _ & H).
  apply bind_Return in H as (ta & _ & H).
  injection H as <-. by exists features, X_scaled, raw.
Qed.

(** What [np.clip(x, 1, 180)] is, case by case. *)
Lemma np_clip_values (raw : pyfloat) :
  (raw = NaN -> np_clip raw (Fin 1) (Fin 180) = NaN)
  /\ (raw = PInf -> np_clip raw (Fin 1) (Fin 180) = Fin 180)
  /\ (raw = NInf -> np_clip raw (Fin 1) (Fin 180) = Fin 1)
  /\ (forall q, raw = Fin q -> q < 1 -> np_clip raw (Fin 1) (Fin 180) = Fin 1)
  /\ (forall q, raw = Fin q -> 180 < q ->
        np_clip raw (Fin 1) (Fin 180) = Fin 180)
  /\ (forall q, raw = Fin q -> 1 <= q -> q <= 180 ->
        np_clip raw (Fin 1) (Fin 180) = Fin q).
Proof.
  split; [by intros ->|]. split; [by intros ->|]. split; [by intros ->|].
  split; [|split].
  - intros q -> Hq. unfold np_clip, np_maximum.
    by rewrite (proj2 (fgt_Fin 1 q) Hq).
  - intros q -> Hq. unfold np_clip, np_maximum.
    rewrite (proj2 (fgt_Fin_false 1 q)) by lra.
    unfold np_minimum, flt. by rewrite (proj2 (fgt_Fin q 180) Hq).
  - intros q -> H1 H2. unfold np_clip, np_maximum.
    rewrite (proj2 (fgt_Fin_false 1 q) H1).
    unfold np_minimum, flt. by rewrite (proj2 (fgt_Fin_false q 180) H2).
Qed.

Section answer_bounds.
Context (here : string).

(** X17: the predicted interval of a successful answer is the clip of the
    raw output [model.predict] returned for the scaled feature row: the raw
    output itself when it lies in [1, 180], 1 below that range (also for
    minus infinity), 180 above it (also for plus infinity), and NaN when
    the raw output is NaN. *)
Theorem successful_interval_is_clipped (fs : FileSystem) (fd : pyval)
    (c : Cache) :
  (predict_interval here fs fd c).1 !! "success" = Some (VBool true) ->
  exists m sc md features X_scaled raw x,
    (load_model here fs c).1 = Return (m, sc, md)
    /\ feature_vector fd = Return features
    /\ scaler_transform sc [features] = Return X_scaled
    /\ predict m X_scaled = Return raw
    /\ (predict_interval here fs fd c).1 !! "predicted_interval"
       = Some (VNum x)
    /\ (raw = NaN -> x = NaN)
    /\ (raw = PInf -> x = Fin 180)
    /\ (raw = NInf -> x = Fin 1)
    /\ (forall q, raw = Fin q -> q < 1 -> x = Fin 1)
    /\ (forall q, raw = Fin q -> 180 < q -> x = Fin 180)
    /\ (forall q, raw = Fin q -> 1 <= q -> q <= 180 -> x = Fin q).
Proof.
  unfold predict_interval, predict_body.
  destruct (load_model here fs c) as [[[[m sc] md]|e] c1];
    cbn [mbind raises_bind fst].
  - destruct (predict_with (m, sc, md) fd) as [d|e] eqn:E.
    + apply predict_with_raw in E as (features & X_scaled & raw & Hf & HX & Hr & Hp).
      intros _.
      exists m, sc, md, features, X_scaled, raw, (np_clip raw (Fin 1) (Fin 180)).
      split; [done|]. split; [done|]. split; [done|]. split; [done|].
      split; [done|]. apply np_clip_values.
    + destruct (handle_failure e) as [msg ->]. discriminate.
  - destruct (handle_failure e) as [msg ->]. discriminate.
Qed.

(** X18: when the request carries a positive finite [current_interval], the
    confidence of a successful answer lies in [0.5, 1.0], whatever the
    model returned. *)
Theorem positive_interval_confidence_in_range (fs : FileSystem)
    (d : gmap string pyval) (q : Q) (c : Cache) :
  d !! "current_interval" = Some (num q) ->
  0 < q ->
  (predict_interval here fs (VDict d) c).1 !! "success" = Some (VBool true) ->
  exists conf,
    (predict_interval here fs (VDict d) c).1 !! "confidence" = Some (num conf)
    /\ 1#2 <= conf /\ conf <= 1.
Proof.
  intros Hd Hq. unfold predict_interval, predict_body.
  destruct (load_model here fs c) as [[b|e] c1]; cbn [mbind raises_bind fst].
  - destruct (predict_with b (VDict d)) as [r|e] eqn:E.
    + apply predict_with_Return in E as (raw & conf & mv & ta & Hc & ->).
      intros _.
      destruct (confidence_of_positive_interval raw q d Hd Hq)
        as (conf' & Hc' & Hlo & Hhi).
      rewrite Hc in Hc'. injection Hc' as ->. by exists conf'.
    + destruct (handle_failure e) as [msg ->]. discriminate.
  - destruct (handle_failure e) as [msg ->]. discriminate.
Qed.

End answer_bounds.

Lemma successful_interval_is_clipped_witness :
  (predict_interval "/srv/ml"
     (bundle_fs feature8_model identity_scaler sample_metadata)
     (request (num 1000)) initial_cache).1 !! "success" = Some (VBool true)
  /\ (predict_interval "/srv/ml"
        (bundle_fs feature8_model identity_scaler sample_metadata)
        (request (num 1000)) initial_cache).1 !! "predicted_interval"
     = Some (num 180)
  /\ exists X_scaled,
       scaler_transform (Some identity_scaler)
         [[num (1#2); num (1#2); num 0; num 5; num 3; num 0; num (5#2);
           num 1000; num 12; num 3; num 0; num 0; num 1; num (1#2); num 0;
           num 0; num 0]] = Return X_scaled
       /\ predict feature8_model X_scaled = Return (Fin 1000).
Proof.
  split; [reflexivity|]. split; [reflexivity|].
  destruct (successful_interval_is_clipped "/srv/ml"
              (bundle_fs feature8_model identity_scaler sample_metadata)
              (request (num 1000)) initial_cache eq_refl)
    as (m & sc & md & features & X_scaled & raw & x
        & Hload & Hf & HX & Hraw & _).
  injection Hload as <- <- _. injection Hf as <-.
  exists X_scaled. split; [exact HX|].
  rewrite Hraw. f_equal.
  vm_compute in HX. injection HX as <-. vm_compute in Hraw. by injection Hraw.
Defined.

Lemma positive_interval_confidence_in_range_witness :
  (<["current_interval" := num 1000]> ∅ : gmap string pyval)
    !! "current_interval" = Some (num 1000)
  /\ 0 < 1000
  /\ exists conf,
       (predict_interval "/srv/ml"
          (bundle_fs feature8_model identity_scaler sample_metadata)
          (request (num 1000)) initial_cache).1 !! "confidence"
       = Some (num conf)
       /\ 1#2 <= conf /\ conf <= 1.
Proof.
  split; [reflexivity|]. split; [reflexivity|].
  exact (positive_interval_confidence_in_range "/srv/ml"
           (bundle_fs feature8_model identity_scaler sample_metadata)
           (<["current_interval" := num 1000]> ∅) 1000 initial_cache
           eq_refl eq_refl eq_refl).
Defined.

(** * Configuration of the training run *)

(** X19: with [DATABASE_URL] unset, or set to the empty string, the run
    ends with [ValueError("DATABASE_URL not set")] before any connection is
    attempted (the outcome does not depend on what connecting would do), and
    nothing is written. *)
Theorem missing_database_url_is_fatal (here : string) (env : TrainEnv)
    (min_samples : Z) (connect : string -> raises Connection) :
  DATABASE_URL env = None \/ DATABASE_URL env = Some "" ->
  train_nsm_model here
    {| DATABASE_URL := DATABASE_URL env; psycopg2_connect := connect;
       permutation := permutation env; scaler_fit := scaler_fit env;
       keras_train := keras_train env; now_isoformat := now_isoformat env |}
    min_samples
  = (Raise (mkExc ValueError "DATABASE_URL not set"), []).
Proof.
  intros H. unfold train_nsm_model, get_rows, get_db_connection.
  cbn [DATABASE_URL psycopg2_connect]. by destruct H as [-> | ->].
Qed.

Lemma missing_database_url_is_fatal_witness :
  DATABASE_URL (mkTrainEnv (Some "") (fun _ => Return (mkConnection (Return five_rows)))
                  (fun n => seq 0 n) first_row_fit
                  (fun _ _ _ _ => Return (feature8_model, Fin 4, Fin 2))
                  "2025-01-01T00:00:00") = Some ""
  /\ train_nsm_model "/srv/ml"
       (mkTrainEnv (Some "") (fun _ => Return (mkConnection (Return five_rows)))
          (fun n => seq 0 n) first_row_fit
          (fun _ _ _ _ => Return (feature8_model, Fin 4, Fin 2))
          "2025-01-01T00:00:00") 5
     = (Raise (mkExc ValueError "DATABASE_URL not set"), []).
Proof.
  split; [reflexivity|].
  exact (missing_database_url_is_fatal "/srv/ml"
           (mkTrainEnv (Some "") (fun _ => Return (mkConnection (Return five_rows)))
              (fun n => seq 0 n) first_row_fit
              (fun _ _ _ _ => Return (feature8_model, Fin 4, Fin 2))
              "2025-01-01T00:00:00") 5
           (fun _ => Return (mkConnection (Return five_rows)))
           (or_intror eq_refl)).
Defined.
